(** * PyFR backend base types: matrices, row slices, banks and views

    A shallow embedding of [pyfr/backends/base/types.py].

    Python objects live in a store and are named by references, so that
    object identity (used by [set(matmap.flat)], by [matmap == m] and by the
    aliasing between a bank and its members) is explicit.  Exceptions are
    values of [exn]; a constructor that raises returns [Raise e].  NumPy
    integer arrays carry their element type: arithmetic between arrays
    wraps around, and storing a Python integer that does not fit raises
    [OverflowError]. *)

From Stdlib Require Import ZArith Lia.
From stdpp Require Import base decidable option list functions gmap sets strings.

Set Default Proof Using "Type".

(** ** Exceptions and results *)

Inductive exn :=
| ValueError (msg : string)
| TypeError (msg : string)
| RuntimeError (msg : string)
| IndexError
| OverflowError
| AttributeError (attr : string).

Inductive result (A : Type) :=
| Ok (a : A)
| Raise (e : exn).
Arguments Ok {A} a.
Arguments Raise {A} e.

#[global] Instance result_ret : MRet result := fun _ a => Ok a.
#[global] Instance result_bind : MBind result := fun _ _ f r =>
  match r with
  | Ok a => f a
  | Raise e => Raise e
  end.

(** ** Python sequences *)

(** [l[i]] for an integer [i]: negative indices count from the end. *)
Definition py_index (len : nat) (i : Z) : option nat :=
  if decide (0 ≤ i < Z.of_nat len)%Z then Some (Z.to_nat i)
  else if decide (- Z.of_nat len ≤ i < 0)%Z then Some (Z.to_nat (Z.of_nat len + i))
  else None.

Definition py_getitem {A} (l : list A) (i : Z) : result A :=
  match py_index (length l) i ≫= (l !!.) with
  | Some x => Ok x
  | None => Raise IndexError
  end.

(** [any(p(x) for x in l)], where evaluating [p] may raise: the generator
    stops at the first true element. *)
Fixpoint py_any {A} (p : A → result bool) (l : list A) : result bool :=
  match l with
  | [] => Ok false
  | x :: l' => b ← p x; if (b : bool) then Ok true else py_any p l'
  end.

(** [for x in l: a = body(a, x)], where the body may raise. *)
Fixpoint py_for {A B} (body : A → B → result A) (a : A) (l : list B)
    : result A :=
  match l with
  | [] => Ok a
  | x :: l' => a' ← body a x; py_for body a' l'
  end.

(** ** The object store *)

(** A reference is the identity of a Python object. *)
Definition ref := nat.

(** Element types ([np.float32], [np.float64]) and [np.dtype(d).itemsize]. *)
Inductive np_dtype := float32 | float64.

#[global] Instance np_dtype_eq_dec : EqDecision np_dtype.
Proof. solve_decision. Defined.

Definition dtype_itemsize (d : np_dtype) : Z :=
  match d with float32 => 4 | float64 => 8 end%Z.

(** The attributes of a backend object that the base classes read. *)
Record Backend := {
  backend_id : nat;
  matrix_cls : string;
}.

#[global] Instance Backend_eq_dec : EqDecision Backend.
Proof. solve_decision. Defined.

(** Values an attribute lookup can produce. *)
Inductive value :=
| VInt (z : Z)
| VDtype (d : np_dtype)
| VTags (t : gset string)
| VShape (s : list Z)
| VTraits (t : Z * Z * Z * np_dtype)
| VBackend (b : Backend)
| VRef (r : ref)
| VRefs (rs : list ref)
| VStr (s : string)
| VNames (names : list string)
| VMethod (owner : string) (name : string)
| VClassAttr (name : string).

(** Lookup in an attribute table. *)
Fixpoint assoc (a : string) (tbl : list (string * value)) : option value :=
  match tbl with
  | [] => None
  | (k, v) :: tbl' => if decide (k = a) then Some v else assoc a tbl'
  end.

(** The names every object of an abstract base class answers itself:
    its class, the class's docstring and module, its instance dictionary,
    whose keys are [fields], the methods of [object], and the class
    attributes of the [abc] machinery, whose values are not modelled.  The
    list is the union over the Python versions. *)
Definition object_attrs (cls doc : string) (fields : list string)
    : list (string * value) :=
  [ ("__class__", VStr cls);
    ("__doc__", VStr doc);
    ("__module__", VStr "pyfr.backends.base.types");
    ("__dict__", VNames fields) ]%string
  ++ ((λ name, (name, VMethod "object" name))
      <$> [ "__repr__"; "__str__"; "__hash__"; "__eq__"; "__ne__"; "__lt__";
            "__le__"; "__gt__"; "__ge__"; "__getattribute__"; "__setattr__";
            "__delattr__"; "__dir__"; "__format__"; "__new__"; "__reduce__";
            "__reduce_ex__"; "__getstate__"; "__sizeof__";
            "__subclasshook__"; "__init_subclass__";
            "__class_getitem__" ]%string)
  ++ ((λ name, (name, VClassAttr name))
      <$> [ "__weakref__"; "__abstractmethods__"; "__slots__";
            "__metaclass__"; "_abc_impl"; "_abc_cache"; "_abc_registry";
            "_abc_negative_cache";
            "_abc_negative_cache_version" ]%string).

(** ** MatrixBase, Matrix, ConstMatrix, MPIMatrix *)

Module MatrixBase.

(** [_base_tags] as attribute lookup finds it: the value of the first
    class, in the object's class list, that defines it.  [MatrixBase],
    [Matrix] and [ConstMatrix] define it; [MPIMatrix] and the classes of
    the concrete backends inherit it. *)
Fixpoint _base_tags (mro : list string) : gset string :=
  match mro with
  | [] => ∅
  | c :: mro' =>
      if decide (c = "Matrix") then {["dense"]}
      else if decide (c = "ConstMatrix") then {["const"; "dense"]}
      else if decide (c = "MatrixBase") then ∅
      else _base_tags mro'
  end.

(** The state of a matrix object.  [__init__] sets [backend], [dtype],
    [itemsize], [ioshape] and [tags]; the layout attributes are set by the
    concrete backend class and read by the code below.  [classes] lists
    the object's class and its bases. *)
Record t := {
  classes : list string;
  backend : Backend;
  dtype : np_dtype;
  itemsize : Z;
  ioshape : list Z;
  tags : gset string;
  nrow : Z;
  ncol : Z;
  leaddim : Z;
  leadsubdim : Z;
  basedata : Z;
  offset : Z;
}.

(** The layout a concrete backend chooses for a new matrix. *)
Record layout := {
  l_nrow : Z;
  l_ncol : Z;
  l_leaddim : Z;
  l_leadsubdim : Z;
  l_basedata : Z;
  l_offset : Z;
}.

Definition init (cls : string) (bases : list string) (be : Backend)
    (d : np_dtype) (shape : list Z) (tgs : gset string) (ly : layout) : t :=
  {| classes := cls :: bases;
     backend := be;
     dtype := d;
     itemsize := dtype_itemsize d;
     ioshape := shape;
     tags := _base_tags (cls :: bases) ∪ tgs;
     nrow := l_nrow ly;
     ncol := l_ncol ly;
     leaddim := l_leaddim ly;
     leadsubdim := l_leadsubdim ly;
     basedata := l_basedata ly;
     offset := l_offset ly |}.

Definition pitch (m : t) : Z := (leaddim m * itemsize m)%Z.

Definition traits (m : t) : Z * Z * Z * np_dtype :=
  (nrow m, leaddim m, leadsubdim m, dtype m).

Definition isinstance (m : t) (cls : string) : bool :=
  bool_decide (cls ∈ classes m).

(** The attributes of this file that a lookup forwarded by a bank can find
    on a matrix: instance attributes, class attributes, properties and
    methods; [set] and [rslice] exist on [Matrix] and its subclasses only.
    The names that every object has are answered by the bank itself and
    never reach this table. *)
Definition attrs (m : t) : list (string * value) :=
  [ ("backend", VBackend (backend m));
    ("dtype", VDtype (dtype m));
    ("itemsize", VInt (itemsize m));
    ("ioshape", VShape (ioshape m));
    ("tags", VTags (tags m));
    ("nrow", VInt (nrow m));
    ("ncol", VInt (ncol m));
    ("leaddim", VInt (leaddim m));
    ("leadsubdim", VInt (leadsubdim m));
    ("basedata", VInt (basedata m));
    ("offset", VInt (offset m));
    ("_base_tags", VTags (_base_tags (classes m)));
    ("pitch", VInt (pitch m));
    ("traits", VTraits (traits m));
    ("get", VMethod "MatrixBase" "get") ]%string
  ++ (if isinstance m "Matrix"
      then [ ("set", VMethod "Matrix" "set");
             ("rslice", VMethod "Matrix" "rslice") ]%string
      else []).

Definition getattr (m : t) (a : string) : result value :=
  match assoc a (attrs m) with
  | Some v => Ok v
  | None => Raise (AttributeError a)
  end.

End MatrixBase.

(** The store maps each reference to the object it names.  A view can be
    given objects that are not matrices; such an object is stored with the
    attributes it has, and the attributes it lacks are listed apart (the
    [lacks] argument of the view constructor). *)
Abbreviation heap := (ref → MatrixBase.t).

(** ** MatrixRSlice *)

Module MatrixRSlice.

Record t := {
  backend : Backend;
  parent : ref;
  nrow : Z;
  ncol : Z;
  dtype : np_dtype;
  itemsize : Z;
  leaddim : Z;
  leadsubdim : Z;
  tags : gset string;
}.

Definition init (h : heap) (be : Backend) (mat : ref) (p q : Z) : result t :=
  if bool_decide (p < 0)%Z || bool_decide (q > MatrixBase.nrow (h mat))%Z
     || bool_decide (q < p)%Z
  then Raise (ValueError "Invalid row slice")
  else Ok {| backend := be;
             parent := mat;
             nrow := q - p;
             ncol := MatrixBase.ncol (h mat);
             dtype := MatrixBase.dtype (h mat);
             itemsize := MatrixBase.itemsize (h mat);
             leaddim := MatrixBase.leaddim (h mat);
             leadsubdim := MatrixBase.leadsubdim (h mat);
             tags := MatrixBase.tags (h mat) ∪ {["slice"]} |}.

Definition pitch (s : t) : Z := (leaddim s * itemsize s)%Z.

Definition traits (s : t) : Z * Z * Z * np_dtype :=
  (nrow s, leaddim s, leadsubdim s, dtype s).

End MatrixRSlice.

(** ** Stateful code: a state monad whose actions may raise

    An action returns the state it leaves behind together with its outcome,
    so that the effect of a method that raises half-way is visible. *)

Definition M (St A : Type) : Type := St → St * result A.

#[global] Instance M_ret {St} : MRet (M St) := fun _ a s => (s, Ok a).
#[global] Instance M_bind {St} : MBind (M St) := fun _ _ f c s =>
  match c s with
  | (s', Ok a) => f a s'
  | (s', Raise e) => (s', Raise e)
  end.

Definition get_state {St} : M St St := fun s => (s, Ok s).
Definition modify {St} (f : St → St) : M St unit := fun s => (f s, Ok tt).
Definition lift {St A} (r : result A) : M St A := fun s => (s, r).
Definition raise {St A} (e : exn) : M St A := fun s => (s, Raise e).

(** ** MatrixBank *)

Module MatrixBank.

Record t := {
  backend : Backend;
  tags : gset string;
  _mats : list ref;
  _curr_idx : Z;
  _curr_mat : ref;
}.

Definition set_curr_idx (idx : Z) (b : t) : t :=
  {| backend := backend b; tags := tags b; _mats := _mats b;
     _curr_idx := idx; _curr_mat := _curr_mat b |}.

Definition set_curr_mat (m : ref) (b : t) : t :=
  {| backend := backend b; tags := tags b; _mats := _mats b;
     _curr_idx := _curr_idx b; _curr_mat := m |}.

Definition init (h : heap) (be : Backend) (mats : list ref) (initbank : Z)
    (tgs : gset string) : result t :=
  hetero ← py_any (λ m, m0 ← py_getitem mats 0;
                        Ok (bool_decide (MatrixBase.traits (h m)
                                         ≠ MatrixBase.traits (h m0))))
                  (drop 1 mats);
  if (hetero : bool)
  then Raise (ValueError "Matrices in a bank must be homogeneous")
  else
    mixed ← py_any (λ m, m0 ← py_getitem mats 0;
                         Ok (bool_decide (MatrixBase.tags (h m)
                                          ≠ MatrixBase.tags (h m0))))
                   (drop 1 mats);
    if (mixed : bool)
    then Raise (ValueError "Matrices in a bank must share tags")
    else
      m0 ← py_getitem mats 0;
      cur ← py_getitem mats initbank;
      Ok {| backend := be;
            tags := tgs ∪ MatrixBase.tags (h m0);
            _mats := mats;
            _curr_idx := initbank;
            _curr_mat := cur |}.

(** Any two members agree on traits and on tags. *)
Definition homogeneous (h : heap) (mats : list ref) : Prop :=
  ∀ m m', m ∈ mats → m' ∈ mats →
    MatrixBase.traits (h m) = MatrixBase.traits (h m')
    ∧ MatrixBase.tags (h m) = MatrixBase.tags (h m').

Definition len (b : t) : nat := length (_mats b).

Definition getitem (b : t) (idx : Z) : result ref :=
  py_getitem (_mats b) idx.

Definition rslice (p q : Z) : M t MatrixRSlice.t :=
  raise (RuntimeError "Matrix banks can not be sliced").

Definition active (b : t) : Z := _curr_idx b.

Definition set_active (idx : Z) : M t unit :=
  modify (set_curr_idx idx);;
  b ← get_state;
  m ← lift (py_getitem (_mats b) idx);
  modify (set_curr_mat m).

(** What normal attribute lookup finds on a bank: its instance
    attributes, the members of its class, the [Sequence] mixins and the
    names every object has. *)
Definition attrs (b : t) : list (string * value) :=
  [ ("backend", VBackend (backend b));
    ("tags", VTags (tags b));
    ("_mats", VRefs (_mats b));
    ("_curr_idx", VInt (_curr_idx b));
    ("_curr_mat", VRef (_curr_mat b));
    ("active", VInt (active b));
    ("rslice", VMethod "MatrixBank" "rslice");
    ("__init__", VMethod "MatrixBank" "__init__");
    ("__len__", VMethod "MatrixBank" "__len__");
    ("__getitem__", VMethod "MatrixBank" "__getitem__");
    ("__getattr__", VMethod "MatrixBank" "__getattr__");
    ("__contains__", VMethod "Sequence" "__contains__");
    ("__iter__", VMethod "Sequence" "__iter__");
    ("__reversed__", VMethod "Sequence" "__reversed__");
    ("index", VMethod "Sequence" "index");
    ("count", VMethod "Sequence" "count") ]%string
  ++ object_attrs "MatrixBank" "Matrix bank abstract base class"
       ["backend"; "tags"; "_mats"; "_curr_idx"; "_curr_mat"]%string.

(** [__getattr__]: the fallback, forwarding to the active member. *)
Definition getattr (h : heap) (b : t) (a : string) : result value :=
  MatrixBase.getattr (h (_curr_mat b)) a.

(** [bank.a]: normal lookup first, [__getattr__] only when it fails. *)
Definition lookup (h : heap) (b : t) (a : string) : result value :=
  match assoc a (attrs b) with
  | Some v => Ok v
  | None => getattr h b a
  end.

End MatrixBank.

(** ** NumPy integer arrays

    Only what the view constructor uses: one- and two-dimensional integer
    arrays, [np.empty], [np.where(a == m)], assignment through an index
    array, column selection, and element-wise [+] and [*] with
    broadcasting.  Arithmetic between arrays is done in the result element
    type and wraps around; a Python integer stored into an array has to
    fit its element type. *)

Module np.

Inductive int_dtype := int32 | int64.

#[global] Instance int_dtype_eq_dec : EqDecision int_dtype.
Proof. solve_decision. Defined.

Definition bits (t : int_dtype) : Z :=
  match t with int32 => 32 | int64 => 64 end%Z.

Definition in_range (t : int_dtype) (z : Z) : Prop :=
  (- 2 ^ (bits t - 1) ≤ z < 2 ^ (bits t - 1))%Z.

(** Two's-complement reduction to the signed range of [t]. *)
Definition wrap (t : int_dtype) (z : Z) : Z :=
  ((z + 2 ^ (bits t - 1)) `mod` 2 ^ bits t - 2 ^ (bits t - 1))%Z.

(** Type promotion of a binary operation. *)
Definition result_type (a b : int_dtype) : int_dtype :=
  match a, b with
  | int32, int32 => int32
  | _, _ => int64
  end.

(** A one-dimensional array. *)
Record ndarray := {
  dtype : int_dtype;
  data : list Z;
}.

(** A two-dimensional array of shape [(nrow2, ncol2)]; [at2 a i j] is
    [a[i, j]] for [i < nrow2 a] and [j < ncol2 a]. *)
Record ndarray2 := {
  dtype2 : int_dtype;
  nrow2 : nat;
  ncol2 : nat;
  at2 : nat → nat → Z;
}.

(** [np.empty(n, dtype=t)]: [junk] is whatever the fresh memory holds. *)
Definition empty (junk : nat → Z) (n : nat) (t : int_dtype) : ndarray :=
  {| dtype := t; data := (λ i, wrap t (junk i)) <$> seq 0 n |}.

(** [np.where(a == m)] on a one-dimensional object array: the indices
    whose element is the object [m], counted from [k]. *)
Fixpoint where_eq_from (k : nat) (a : list ref) (m : ref) : list nat :=
  match a with
  | [] => []
  | x :: a' =>
      if decide (x = m) then k :: where_eq_from (S k) a' m
      else where_eq_from (S k) a' m
  end.

Definition where_eq (a : list ref) (m : ref) : list nat :=
  where_eq_from 0 a m.

#[global] Instance in_range_dec t z : Decision (in_range t z).
Proof. unfold in_range. apply _. Defined.

(** [a[ix] = v] for an index array [ix] and a Python integer [v]: the
    integer is converted to the element type first, which raises
    [OverflowError] when it does not fit. *)
Definition put (a : ndarray) (ix : list nat) (v : Z) : result ndarray :=
  if decide (in_range (dtype a) v)
  then Ok {| dtype := dtype a;
             data := foldl (λ d i, <[i := v]> d) (data a) ix |}
  else Raise OverflowError.

(** [a[:, j]]. *)
Definition column (a : ndarray2) (j : Z) : result ndarray :=
  match py_index (ncol2 a) j with
  | Some c => Ok {| dtype := dtype2 a;
                    data := (λ i, at2 a i c) <$> seq 0 (nrow2 a) |}
  | None => Raise IndexError
  end.

(** Broadcasting of two one-dimensional shapes. *)
Definition broadcast (xs ys : list Z) : option (list Z * list Z) :=
  if decide (length xs = length ys) then Some (xs, ys)
  else match xs, ys with
       | [x], _ => Some (replicate (length ys) x, ys)
       | _, [y] => Some (xs, replicate (length xs) y)
       | _, _ => None
       end.

(** The lengths that can be broadcast against each other, and the length
    of the result. *)
Definition compatible (a b : nat) : Prop := a = b ∨ a = 1 ∨ b = 1.

Definition broadcast_length (a b : nat) : nat :=
  if decide (a = 1) then b else a.

Definition binop (f : Z → Z → Z) (a b : ndarray) : result ndarray :=
  match broadcast (data a) (data b) with
  | Some (xs, ys) =>
      let t := result_type (dtype a) (dtype b) in
      Ok {| dtype := t; data := zip_with (λ x y, wrap t (f x y)) xs ys |}
  | None => Raise (ValueError "operands could not be broadcast together")
  end.

Definition add : ndarray → ndarray → result ndarray := binop Z.add.
Definition mul : ndarray → ndarray → result ndarray := binop Z.mul.

(** [a[None, :]]: the same data as a single row. *)
Definition newaxis (a : ndarray) : ndarray2 :=
  {| dtype2 := dtype a;
     nrow2 := 1;
     ncol2 := length (data a);
     at2 := λ _ j, nth j (data a) 0%Z |}.

End np.

(** ** View *)

Module View.

(** [rstrides] and [cstrides] are attributes that exist only when they
    were assigned: [None] is the absent attribute. *)
Record t := {
  n : nat;
  nvrow : Z;
  nvcol : Z;
  _mats : list ref;
  basedata : Z;
  refdtype : np_dtype;
  mapping : np.ndarray2;
  rstrides : option np.ndarray2;
  cstrides : option np.ndarray2;
}.

(** [vshape[-2] if len(vshape) == 2 else 1] *)
Definition get_nvrow (vshape : list Z) : result Z :=
  if decide (length vshape = 2) then py_getitem vshape (-2) else Ok 1%Z.

(** [vshape[-1] if len(vshape) >= 1 else 1] *)
Definition get_nvcol (vshape : list Z) : result Z :=
  if decide (1 ≤ length vshape) then py_getitem vshape (-1) else Ok 1%Z.

(** Reading attribute [a] of a referenced object.  A view's [matmap] may
    reference objects that are not matrices: [lacks m] lists the
    attributes the object named by [m] does not have (none, for a matrix),
    and [x] is the value of the attribute when the object has it. *)
Definition attr {A} (lacks : ref → list string) (m : ref) (a : string)
    (x : A) : result A :=
  if decide (a ∈ lacks m) then Raise (AttributeError a) else Ok x.

(** One round of the loop filling [offset] and [leaddim]: the right-hand
    side is evaluated first, then the two assignments are made in turn. *)
Definition fill (h : heap) (lacks : ref → list string) (matmap : list ref)
    (ol : np.ndarray * np.ndarray) (m : ref)
    : result (np.ndarray * np.ndarray) :=
  let ix := np.where_eq matmap m in
  vo ← attr lacks m "offset" (MatrixBase.offset (h m));
  vl ← attr lacks m "leaddim" (MatrixBase.leaddim (h m));
  o ← np.put ol.1 ix vo;
  l ← np.put ol.2 ix vl;
  Ok (o, l).

(** [ms] is [list(set(matmap.flat))]: the distinct objects of [matmap] in
    the order the set happens to iterate them.  [junk_o] and [junk_l] are
    the initial contents of the two [np.empty] arrays.  The [tags]
    argument is accepted and not used. *)
Definition init (h : heap) (lacks : ref → list string)
    (junk_o junk_l : nat → Z) (ms : list ref)
    (be : Backend) (matmap : list ref) (rcmap stridemap : np.ndarray2)
    (vshape : list Z) (tgs : gset string) : result t :=
  let n := length matmap in
  nvrow ← get_nvrow vshape;
  nvcol ← get_nvcol vshape;
  let _mats := ms in
  m0 ← py_getitem _mats 0;
  basedata ← attr lacks m0 "basedata" (MatrixBase.basedata (h m0));
  refdtype ← attr lacks m0 "dtype" (MatrixBase.dtype (h m0));
  if existsb (λ m, negb (MatrixBase.isinstance (h m) (matrix_cls be))) _mats
  then Raise (TypeError "Incompatible matrix type for view")
  else
    foreign ← py_any (λ m, b ← attr lacks m "basedata"
                                  (MatrixBase.basedata (h m));
                           Ok (bool_decide (b ≠ basedata))) _mats;
    if (foreign : bool)
    then Raise (TypeError
      "All viewed matrices must belong to the same allocation extent")
    else
      mixed ← py_any (λ m, d ← attr lacks m "dtype" (MatrixBase.dtype (h m));
                           Ok (bool_decide (d ≠ refdtype))) _mats;
      if (mixed : bool)
      then Raise (TypeError "Mixed data types are not supported")
      else
        let offset := np.empty junk_o n np.int32 in
        let leaddim := np.empty junk_l n np.int32 in
        ol ← py_for (fill h lacks matmap) (offset, leaddim) _mats;
        let offset := ol.1 in
        let leaddim := ol.2 in
        rows ← np.column rcmap 0;
        disp ← np.mul rows leaddim;
        base ← np.add offset disp;
        cols ← np.column rcmap 1;
        mapping ← np.add base cols;
        rstrides ←
          (if decide (nvrow > 1)%Z
           then s0 ← np.column stridemap 0;
                rs ← np.mul s0 leaddim;
                Ok (Some (np.newaxis rs))
           else Ok None);
        cstrides ←
          (if decide (nvcol > 1)%Z
           then sl ← np.column stridemap (-1);
                Ok (Some (np.newaxis sl))
           else Ok None);
        Ok {| n := n;
              nvrow := nvrow;
              nvcol := nvcol;
              _mats := _mats;
              basedata := basedata;
              refdtype := refdtype;
              mapping := np.newaxis mapping;
              rstrides := rstrides;
              cstrides := cstrides |}.

(** [ms] lists each object of [matmap] exactly once. *)
Definition enumerates (ms matmap : list ref) : Prop :=
  NoDup ms ∧ ∀ m, m ∈ ms ↔ m ∈ matmap.

(** One possible iteration order: first occurrences. *)
Definition distinct (matmap : list ref) : list ref := remove_dups matmap.

(** A per-point map has one row for each point of [matmap]. *)
Definition per_point (matmap : list ref) (a : np.ndarray2) : Prop :=
  np.nrow2 a = length matmap.

(** The maps have the columns the constructor reads and numbers of rows
    that can be broadcast against the number of points; the stride map is
    read only for a multiplicity above 1. *)
Definition usable (matmap : list ref) (rcmap stridemap : np.ndarray2)
    (vshape : list Z) : Prop :=
  2 ≤ np.ncol2 rcmap
  ∧ np.compatible (np.nrow2 rcmap) (length matmap)
  ∧ (∀ r, get_nvrow vshape = Ok r → (r > 1)%Z →
       1 ≤ np.ncol2 stridemap
       ∧ np.compatible (np.nrow2 stridemap) (length matmap))
  ∧ (∀ c, get_nvcol vshape = Ok c → (c > 1)%Z → 1 ≤ np.ncol2 stridemap).

(** Every referenced matrix is of the backend's matrix class, and any two
    agree on the extent and on the element type. *)
Definition consistent (h : heap) (be : Backend) (matmap : list ref)
    : Prop :=
  (∀ m, m ∈ matmap → MatrixBase.isinstance (h m) (matrix_cls be) = true)
  ∧ ∀ m m', m ∈ matmap → m' ∈ matmap →
      MatrixBase.basedata (h m) = MatrixBase.basedata (h m')
      ∧ MatrixBase.dtype (h m) = MatrixBase.dtype (h m').

(** Every referenced object has the attributes the constructor reads. *)
Definition readable (lacks : ref → list string) (matmap : list ref)
    : Prop :=
  ∀ m a, m ∈ matmap →
    a ∈ ["basedata"; "dtype"; "offset"; "leaddim"]%string → a ∉ lacks m.

(** Offset and leading dimension of every referenced matrix fit [int32]. *)
Definition fits (h : heap) (matmap : list ref) : Prop :=
  ∀ m, m ∈ matmap →
    np.in_range np.int32 (MatrixBase.offset (h m))
    ∧ np.in_range np.int32 (MatrixBase.leaddim (h m)).


(** The displacement of element [(r, c)] of matrix [m] from the start of
    its extent, as an integer. *)
Definition displacement (h : heap) (m : ref) (r c : Z) : Z :=
  (MatrixBase.offset (h m) + r * MatrixBase.leaddim (h m) + c)%Z.

(** The element type of [int32 array (op) a]. *)
Definition index_type (a : np.ndarray2) : np.int_dtype :=
  np.result_type (np.dtype2 a) np.int32.

End View.

(** ** The backend's factory methods

    [backend.view] and [backend.mpi_matrix] are implemented by the concrete
    backends; here they are an interface.  [St] is whatever state the
    backend keeps (its allocations). *)

Class BackendFactory (St : Type) := {
  backend_view : Backend → list ref → np.ndarray2 → np.ndarray2 → list Z →
                 gset string → M St View.t;
  backend_mpi_matrix : Backend → Z * Z * Z → gset string → M St ref;
}.

(** ** MPIView *)

Module MPIView.

Record t := {
  view : View.t;
  n : nat;
  nvrow : Z;
  nvcol : Z;
  mpimat : ref;
}.

Definition init {St} `{!BackendFactory St} (be : Backend)
    (matmap : list ref) (rcmap stridemap : np.ndarray2) (vshape : list Z)
    (tgs : gset string) : M St t :=
  v ← backend_view be matmap rcmap stridemap vshape tgs;
  let n := View.n v in
  let nvrow := View.nvrow v in
  let nvcol := View.nvcol v in
  m ← backend_mpi_matrix be (nvrow, nvcol, Z.of_nat n) tgs;
  mret {| view := v; n := n; nvrow := nvrow; nvcol := nvcol; mpimat := m |}.

End MPIView.

(** ** A concrete backend

    Modelled from the spec: the backend collaborator of section 6 (an Array
    factory taking a shape and tags, a View factory taking the maps, the
    shape and tags), which the concrete backends implement outside this
    file.  Its state is the object store and the next free reference. *)

Module RefBackend.

(** Modelled from the spec: the backend owns the objects it allocated. *)
Record state := {
  objects : heap;
  next : ref;
}.

(** Modelled from the spec: the View factory builds the view over the
    given maps with the base-class constructor; the store holds matrices,
    which have all their attributes. *)
Definition view (be : Backend) (matmap : list ref)
    (rcmap stridemap : np.ndarray2) (vshape : list Z) (tgs : gset string)
    : M state View.t :=
  s ← get_state;
  lift (View.init (objects s) (λ _, []) (λ _, 0%Z) (λ _, 0%Z)
                  (View.distinct matmap) be matmap rcmap stridemap vshape
                  tgs).

(** Modelled from the spec: the Array factory allocates a dense
    [MPIMatrix] of the given I/O shape, unpadded, in an extent of its
    own, and registers it in the store. *)
Definition mpi_matrix (be : Backend) (shape : Z * Z * Z)
    (tgs : gset string) : M state ref :=
  s ← get_state;
  let '(a, b, c) := shape in
  let m := MatrixBase.init "MPIMatrix" ["Matrix"; "MatrixBase"] be float64
             [a; b; c] tgs
             {| MatrixBase.l_nrow := a;
                MatrixBase.l_ncol := b * c;
                MatrixBase.l_leaddim := b * c;
                MatrixBase.l_leadsubdim := c;
                MatrixBase.l_basedata := Z.of_nat (next s);
                MatrixBase.l_offset := 0 |} in
  modify (λ s, {| objects := <[next s := m]> (objects s);
                  next := S (next s) |});;
  mret (next s).

#[global] Instance factory : BackendFactory state :=
  {| backend_view := view; backend_mpi_matrix := mpi_matrix |}.

End RefBackend.

(** ** Sample objects *)

Module Sample.

Definition be : Backend := {| backend_id := 0; matrix_cls := "Matrix" |}.

(** A [rows]-by-[ld] matrix of class [Matrix] at [off] in extent [base]. *)
Definition matrix (d : np_dtype) (rows ld base off : Z) : MatrixBase.t :=
  MatrixBase.init "Matrix" ["MatrixBase"] be d [rows; ld] ∅
    {| MatrixBase.l_nrow := rows;
       MatrixBase.l_ncol := ld;
       MatrixBase.l_leaddim := ld;
       MatrixBase.l_leadsubdim := ld;
       MatrixBase.l_basedata := base;
       MatrixBase.l_offset := off |}.

(** Objects 0 and 1 share an extent and an element type; 2 lies in
    another extent; 3 has another element type; 4 is a constant matrix
    (other tags, not a [Matrix]); 5 is large; 7 is a row slice of object
    0, which has neither [basedata] nor [offset] (see [lacks]); 8 lies
    2^31 elements into the extent; the others have other traits. *)
Definition store : heap := λ r,
  match r with
  | 0 => matrix float32 4 8 1000 0
  | 1 => matrix float32 4 8 1000 32
  | 2 => matrix float32 4 8 2000 0
  | 3 => matrix float64 4 8 1000 64
  | 4 => MatrixBase.init "ConstMatrix" ["MatrixBase"] be float32 [4; 8]%Z ∅
           {| MatrixBase.l_nrow := 4;
              MatrixBase.l_ncol := 8;
              MatrixBase.l_leaddim := 8;
              MatrixBase.l_leadsubdim := 8;
              MatrixBase.l_basedata := 1000;
              MatrixBase.l_offset := 96 |}
  | 5 => matrix float32 40000 65536 1000 0
  | 7 => MatrixBase.init "MatrixRSlice" [] be float32 [2; 8]%Z
           {["dense"; "slice"]}
           {| MatrixBase.l_nrow := 2;
              MatrixBase.l_ncol := 8;
              MatrixBase.l_leaddim := 8;
              MatrixBase.l_leadsubdim := 8;
              MatrixBase.l_basedata := 0;
              MatrixBase.l_offset := 0 |}
  | 8 => matrix float32 4 8 1000 2147483648
  | _ => matrix float32 6 8 1000 128
  end.

(** The attributes the sample objects lack. *)
Definition lacks : ref → list string := λ r,
  match r with
  | 7 => ["basedata"; "offset"]%string
  | _ => []
  end.


(** [np.array(rows, dtype=t)] for rows of [cols] entries each. *)
Definition array2 (t : np.int_dtype) (cols : nat) (rows : list (list Z))
    : np.ndarray2 :=
  {| np.dtype2 := t;
     np.nrow2 := length rows;
     np.ncol2 := cols;
     np.at2 := λ i j, nth j (nth i rows []) 0%Z |}.

(** Fresh memory that happens to hold zeros. *)
Definition junk : nat → Z := λ _, 0%Z.

(** One point, element (2, 3). *)
Definition rc_small : np.ndarray2 := array2 np.int32 2 [[2; 3]]%Z.

(** One point, element (32768, 0). *)
Definition rc_big : np.ndarray2 := array2 np.int32 2 [[32768; 0]]%Z.

Definition sm_unit : np.ndarray2 := array2 np.int32 2 [[1; 1]]%Z.

Definition sm_big : np.ndarray2 := array2 np.int32 2 [[65536; 1]]%Z.

(** Three points: elements (2, 3) and (1, 1) of object 0 and (0, 1) of
    object 1. *)
Definition matmap_three : list ref := [0; 1; 0].

Definition rc_three : np.ndarray2 :=
  array2 np.int32 2 [[2; 3]; [0; 1]; [1; 1]]%Z.

Definition sm_three : np.ndarray2 :=
  array2 np.int32 2 [[1; 1]; [1; 1]; [1; 1]]%Z.

(** A backend state holding the sample objects. *)
Definition state : RefBackend.state :=
  {| RefBackend.objects := store; RefBackend.next := 10 |}.

(** Two rows, for a view that has one point only. *)
Definition rc_two : np.ndarray2 := array2 np.int32 2 [[2; 3]; [1; 1]]%Z.

Definition sm_two : np.ndarray2 := array2 np.int32 2 [[1; 1]; [1; 1]]%Z.

(** One row without columns. *)
Definition rc_empty : np.ndarray2 := array2 np.int32 0 [[]].

(** One point, the column index missing. *)
Definition rc_narrow : np.ndarray2 := array2 np.int32 1 [[2]]%Z.

(** Maps of a view without points. *)
Definition rc_none : np.ndarray2 := array2 np.int32 2 [].

Definition sm_none : np.ndarray2 := array2 np.int32 2 [].

Definition bank : MatrixBank.t :=
  {| MatrixBank.backend := be;
     MatrixBank.tags := {["dense"]};
     MatrixBank._mats := [0; 1];
     MatrixBank._curr_idx := 0;
     MatrixBank._curr_mat := 0 |}.

End Sample.

(** ** Derived notions *)

(** The active member is the member that the active index names. *)
Definition bank_coherent (b : MatrixBank.t) : Prop :=
  py_getitem (MatrixBank._mats b) (MatrixBank._curr_idx b)
  = Ok (MatrixBank._curr_mat b).

(** Two views agree on everything but the order of [_mats]. *)
Definition view_agree (v v' : View.t) : Prop :=
  View.n v = View.n v'
  ∧ View.nvrow v = View.nvrow v'
  ∧ View.nvcol v = View.nvcol v'
  ∧ View.basedata v = View.basedata v'
  ∧ View.refdtype v = View.refdtype v'
  ∧ View.mapping v = View.mapping v'
  ∧ View.rstrides v = View.rstrides v'
  ∧ View.cstrides v = View.cstrides v'.

(** * Properties *)

(** ** Python indexing *)

Section indexing.
Context {A : Type}.
Implicit Types (l : list A) (i : Z) (k : nat).

Lemma py_index_valid (len : nat) i :
  (- Z.of_nat len ≤ i < Z.of_nat len)%Z →
  ∃ k, py_index len i = Some k ∧ k < len.
Proof.
  intros Hi. unfold py_index.
  destruct (decide (0 ≤ i < Z.of_nat len)%Z).
  - exists (Z.to_nat i). split; [done | lia].
  - rewrite decide_True by lia.
    exists (Z.to_nat (Z.of_nat len + i)). split; [done | lia].
Qed.

Lemma py_index_invalid (len : nat) i :
  ¬ (- Z.of_nat len ≤ i < Z.of_nat len)%Z → py_index len i = None.
Proof.
  intros Hi. unfold py_index. rewrite !decide_False by lia. done.
Qed.

Lemma py_index_Some (len : nat) i k :
  py_index len i = Some k →
  k < len ∧ (- Z.of_nat len ≤ i < Z.of_nat len)%Z.
Proof.
  unfold py_index. repeat case_decide; intros [= <-]; lia.
Qed.

Lemma py_getitem_valid l i :
  (- Z.of_nat (length l) ≤ i < Z.of_nat (length l))%Z →
  ∃ x, py_getitem l i = Ok x ∧ x ∈ l.
Proof.
  intros Hi. destruct (py_index_valid _ _ Hi) as (k & Hk & Hlt).
  destruct (lookup_lt_is_Some_2 l k Hlt) as [x Hx].
  exists x. unfold py_getitem. rewrite Hk. simpl. rewrite Hx.
  split; [done |]. by eapply list_elem_of_lookup_2.
Qed.

Lemma py_getitem_invalid l i :
  ¬ (- Z.of_nat (length l) ≤ i < Z.of_nat (length l))%Z →
  py_getitem l i = Raise IndexError.
Proof.
  intros Hi. unfold py_getitem. by rewrite py_index_invalid.
Qed.

Lemma py_index_nonneg (len : nat) i k :
  (0 ≤ i)%Z → py_index len i = Some k → k = Z.to_nat i.
Proof.
  unfold py_index. repeat case_decide; intros ? [= <-]; lia.
Qed.

Lemma py_index_last (len : nat) k :
  py_index len (-1) = Some k → k = len - 1.
Proof.
  unfold py_index. repeat case_decide; intros [= <-]; lia.
Qed.

Lemma py_getitem_head x l : py_getitem (x :: l) 0 = Ok x.
Proof.
  unfold py_getitem, py_index. rewrite decide_True; [done |].
  simpl length. lia.
Qed.

(** A generator whose test cannot raise is [existsb]. *)
Lemma py_any_pure (p : A → bool) (q : A → result bool) l :
  (∀ x, x ∈ l → q x = Ok (p x)) → py_any q l = Ok (existsb p l).
Proof.
  induction l as [| x l IH]; intros Hq; [done |]. simpl.
  rewrite (Hq x) by left. simpl.
  destruct (p x); [done |]. apply IH. intros y Hy. apply Hq. by right.
Qed.

(** A generator over which [any] is [False] raised nowhere and was false
    everywhere. *)
Lemma py_any_false (q : A → result bool) l :
  py_any q l = Ok false → ∀ x, x ∈ l → q x = Ok false.
Proof.
  induction l as [| y l IH]; intros Hq x Hx; [by apply elem_of_nil in Hx |].
  simpl in Hq. destruct (q y) as [[|] |] eqn:Hy; simpl in Hq; try done.
  apply elem_of_cons in Hx as [-> | Hx]; [done | by apply IH].
Qed.


Lemma existsb_false_iff (p : A → bool) l :
  existsb p l = false ↔ ∀ x, x ∈ l → p x = false.
Proof.
  induction l as [| x l IH]; simpl.
  - split; [intros _ y Hy; by apply elem_of_nil in Hy | done].
  - rewrite orb_false_iff, IH. split.
    + intros [Hx Hl] y [-> | Hy]%elem_of_cons; auto.
    + intros H. split; [apply H; left | intros y Hy; apply H; by right].
Qed.

Lemma existsb_true_iff (p : A → bool) l :
  existsb p l = true ↔ ∃ x, x ∈ l ∧ p x = true.
Proof.
  rewrite existsb_exists. split; intros (x & Hx & Hp); exists x;
    (split; [by apply list_elem_of_In | done]).
Qed.

End indexing.

Lemma py_for_snoc {A B} (f : A → B → result A) (a : A) (l : list B) (x : B) :
  py_for f a (l ++ [x]) = a' ← py_for f a l; f a' x.
Proof.
  revert a. induction l as [| y l IH]; intros a; simpl.
  - by destruct (f a x).
  - destruct (f a y) as [a' |]; simpl; [apply IH | done].
Qed.

(** ** Row slices *)

(** C3: for every parent matrix [A] and integers [0 ≤ p ≤ q ≤ A.nrow] the
    row slice is built, its traits are [(q - p, A.leaddim, A.leadsubdim,
    A.dtype)] and its tags are [A]'s tags together with "slice"; for
    [p < 0], [q > A.nrow] or [q < p] the constructor raises the
    [ValueError] for an invalid row slice. *)
Theorem C3_rslice_traits_and_range (h : heap) (be : Backend) (A : ref)
    (p q : Z) :
  ((0 ≤ p ≤ q ∧ q ≤ MatrixBase.nrow (h A))%Z →
     ∃ s, MatrixRSlice.init h be A p q = Ok s
          ∧ MatrixRSlice.traits s
            = ((q - p)%Z, MatrixBase.leaddim (h A),
               MatrixBase.leadsubdim (h A), MatrixBase.dtype (h A))
          ∧ MatrixRSlice.tags s = MatrixBase.tags (h A) ∪ {["slice"]}
          ∧ MatrixRSlice.parent s = A)
  ∧ ((p < 0 ∨ q > MatrixBase.nrow (h A) ∨ q < p)%Z →
     MatrixRSlice.init h be A p q = Raise (ValueError "Invalid row slice")).
Proof.
  unfold MatrixRSlice.init. split.
  - intros [Hpq Hq]. rewrite !bool_decide_eq_false_2 by lia. simpl.
    eexists. split; [done |]. by repeat split.
  - intros Hbad.
    destruct (decide (p < 0)%Z); [by rewrite bool_decide_eq_true_2 |].
    rewrite (bool_decide_eq_false_2 (p < 0)%Z) by done. simpl.
    destruct (decide (q > MatrixBase.nrow (h A))%Z);
      [by rewrite bool_decide_eq_true_2 |].
    rewrite (bool_decide_eq_false_2 (q > _)%Z) by done. simpl.
    rewrite bool_decide_eq_true_2 by lia. done.
Qed.

Lemma C3_rslice_witness :
  (∃ s, MatrixRSlice.init Sample.store Sample.be 0 1 3 = Ok s
        ∧ MatrixRSlice.traits s = (2, 8, 8, float32)%Z
        ∧ MatrixRSlice.tags s = {["dense"]} ∪ {["slice"]})
  ∧ MatrixRSlice.init Sample.store Sample.be 0 3 5
    = Raise (ValueError "Invalid row slice").
Proof.
  destruct (C3_rslice_traits_and_range Sample.store Sample.be 0 1 3)
    as [Hok _].
  destruct (C3_rslice_traits_and_range Sample.store Sample.be 0 3 5)
    as [_ Hbad].
  split.
  - destruct Hok as (s & Hs & Ht & Hg & _); [simpl; lia |].
    exists s. split; [exact Hs |]. split; [exact Ht |].
    rewrite Hg. simpl. by f_equal.
  - apply Hbad. simpl. lia.
Defined.

(** ** Banks *)

Section bank.
Variable h : heap.
Implicit Types (b : MatrixBank.t) (mats : list ref).

(** The constructor on a non-empty list, with the generators evaluated. *)
Lemma bank_init_cons be m0 rest initbank tgs :
  MatrixBank.init h be (m0 :: rest) initbank tgs =
  if existsb (λ m, bool_decide (MatrixBase.traits (h m)
                                ≠ MatrixBase.traits (h m0))) rest
  then Raise (ValueError "Matrices in a bank must be homogeneous")
  else if existsb (λ m, bool_decide (MatrixBase.tags (h m)
                                     ≠ MatrixBase.tags (h m0))) rest
  then Raise (ValueError "Matrices in a bank must share tags")
  else cur ← py_getitem (m0 :: rest) initbank;
       Ok {| MatrixBank.backend := be;
             MatrixBank.tags := tgs ∪ MatrixBase.tags (h m0);
             MatrixBank._mats := m0 :: rest;
             MatrixBank._curr_idx := initbank;
             MatrixBank._curr_mat := cur |}.
Proof.
  assert (Hpure : ∀ {B} `{!EqDecision B} (f : ref → B),
    py_any (λ m, m1 ← py_getitem (m0 :: rest) 0;
                 Ok (bool_decide (f m ≠ f m1))) rest
    = Ok (existsb (λ m, bool_decide (f m ≠ f m0)) rest)).
  { intros B ? f. apply py_any_pure. intros x _.
    by rewrite py_getitem_head. }
  unfold MatrixBank.init. simpl drop. rewrite drop_0.
  rewrite (Hpure _ _ (λ m, MatrixBase.traits (h m))).
  rewrite (Hpure _ _ (λ m, MatrixBase.tags (h m))).
  rewrite py_getitem_head. simpl.
  by repeat destruct (existsb _ rest).
Qed.

(** Of two members that differ, one differs from the first member. *)
Lemma differs_from_head {B} `{!EqDecision B} (f : ref → B) m0 rest m m' :
  m ∈ m0 :: rest → m' ∈ m0 :: rest → f m ≠ f m' →
  ∃ x, x ∈ rest ∧ f x ≠ f m0.
Proof.
  intros Hm Hm' Hne.
  apply elem_of_cons in Hm as [-> | Hm];
    apply elem_of_cons in Hm' as [-> | Hm']; [done | | |].
  - exists m'. split; [done | congruence].
  - exists m. done.
  - destruct (decide (f m = f m0)) as [Heq | Hd]; [| by exists m].
    exists m'. split; [done | congruence].
Qed.

Lemma set_active_eq idx b :
  MatrixBank.set_active idx b =
  match py_getitem (MatrixBank._mats b) idx with
  | Ok m => (MatrixBank.set_curr_mat m (MatrixBank.set_curr_idx idx b),
             Ok tt)
  | Raise e => (MatrixBank.set_curr_idx idx b, Raise e)
  end.
Proof.
  unfold MatrixBank.set_active, mbind, M_bind, modify, get_state, lift.
  simpl. by destruct (py_getitem (MatrixBank._mats b) idx).
Qed.

End bank.

(** C4 (amended): the bank constructor raises [ValueError] whenever two
    members differ in traits, and whenever two members differ in tags; from
    [N] members that share traits and tags, and an initial index that is a
    valid index into them ([-N ≤ initbank < N], so [N ≥ 1]), it builds a
    bank of length [N]. *)
Theorem C4_bank_homogeneity (h : heap) (be : Backend) (mats : list ref)
    (initbank : Z) (tgs : gset string) :
  ((∃ m m', m ∈ mats ∧ m' ∈ mats
            ∧ MatrixBase.traits (h m) ≠ MatrixBase.traits (h m')) →
     MatrixBank.init h be mats initbank tgs
     = Raise (ValueError "Matrices in a bank must be homogeneous"))
  ∧ ((∃ m m', m ∈ mats ∧ m' ∈ mats
              ∧ MatrixBase.tags (h m) ≠ MatrixBase.tags (h m')) →
     ∃ msg, MatrixBank.init h be mats initbank tgs = Raise (ValueError msg))
  ∧ (MatrixBank.homogeneous h mats →
     (- Z.of_nat (length mats) ≤ initbank < Z.of_nat (length mats))%Z →
     ∃ b, MatrixBank.init h be mats initbank tgs = Ok b
          ∧ MatrixBank.len b = length mats
          ∧ MatrixBank._mats b = mats
          ∧ MatrixBank.active b = initbank
          ∧ MatrixBank.getitem b initbank = Ok (MatrixBank._curr_mat b)).
Proof.
  destruct mats as [| m0 rest].
  { split; [| split].
    - intros (m & _ & Hm & _). by apply elem_of_nil in Hm.
    - intros (m & _ & Hm & _). by apply elem_of_nil in Hm.
    - simpl. lia. }
  rewrite bank_init_cons. split; [| split].
  - intros (m & m' & Hm & Hm' & Hne).
    destruct (differs_from_head (λ m, MatrixBase.traits (h m)) _ _ _ _
                Hm Hm' Hne) as (x & Hx & Hd).
    replace (existsb _ rest) with true; [done |].
    symmetry. apply existsb_true_iff. exists x.
    split; [done | by apply bool_decide_eq_true_2].
  - intros (m & m' & Hm & Hm' & Hne).
    destruct (differs_from_head (λ m, MatrixBase.tags (h m)) _ _ _ _
                Hm Hm' Hne) as (x & Hx & Hd).
    destruct (existsb (λ m, bool_decide (MatrixBase.traits (h m)
                                         ≠ MatrixBase.traits (h m0))) rest);
      [by eexists |].
    replace (existsb _ rest) with true; [by eexists |].
    symmetry. apply existsb_true_iff. exists x.
    split; [done | by apply bool_decide_eq_true_2].
  - intros Hhom Hidx.
    replace (existsb (λ m, bool_decide (MatrixBase.traits (h m)
                                        ≠ MatrixBase.traits (h m0))) rest)
      with false; cycle 1.
    { symmetry. apply existsb_false_iff. intros x Hx.
      apply bool_decide_eq_false_2. intros Hne. apply Hne.
      apply Hhom; [by right | by left]. }
    replace (existsb (λ m, bool_decide (MatrixBase.tags (h m)
                                        ≠ MatrixBase.tags (h m0))) rest)
      with false; cycle 1.
    { symmetry. apply existsb_false_iff. intros x Hx.
      apply bool_decide_eq_false_2. intros Hne. apply Hne.
      apply Hhom; [by right | by left]. }
    destruct (py_getitem_valid (m0 :: rest) initbank Hidx) as (cur & Hc & _).
    rewrite Hc. simpl. eexists. split; [done |].
    unfold MatrixBank.len, MatrixBank.active, MatrixBank.getitem. simpl.
    by rewrite Hc.
Qed.

Lemma C4_bank_witness :
  MatrixBank.init Sample.store Sample.be [0; 3] 0 ∅
  = Raise (ValueError "Matrices in a bank must be homogeneous")
  ∧ (∃ msg, MatrixBank.init Sample.store Sample.be [0; 4] 0 ∅
            = Raise (ValueError msg))
  ∧ (∃ b, MatrixBank.init Sample.store Sample.be [0; 1; 2] (-1) ∅ = Ok b
          ∧ MatrixBank.len b = 3).
Proof.
  split; [| split].
  - destruct (C4_bank_homogeneity Sample.store Sample.be [0; 3] 0 ∅)
      as (Htr & _).
    apply Htr. exists 0, 3. split; [by left |]. split; [by right; left |].
    by vm_compute.
  - destruct (C4_bank_homogeneity Sample.store Sample.be [0; 4] 0 ∅)
      as (_ & Htg & _).
    apply Htg. exists 0, 4. split; [by left |]. split; [by right; left |].
    intros Heq.
    assert (Hin : "const" ∈ MatrixBase.tags (Sample.store 0))
      by (rewrite Heq; by vm_compute).
    by vm_compute in Hin.
  - destruct (C4_bank_homogeneity Sample.store Sample.be [0; 1; 2] (-1) ∅)
      as (_ & _ & Hok).
    destruct Hok as (b & Hb & Hlen & _).
    + assert (Hall : ∀ x, x ∈ [0; 1; 2] →
                MatrixBase.traits (Sample.store x)
                = MatrixBase.traits (Sample.store 0)
                ∧ MatrixBase.tags (Sample.store x)
                  = MatrixBase.tags (Sample.store 0)).
      { intros x Hx. repeat (apply elem_of_cons in Hx as [-> | Hx]; [done |]).
        by apply elem_of_nil in Hx. }
      intros m m' Hm Hm'.
      destruct (Hall m Hm) as [-> ->]. destruct (Hall m' Hm') as [-> ->]. done.
    + simpl. lia.
    + by exists b.
Defined.

(** The specification's statement without the condition on the initial
    index fails: members that share traits and tags are not enough, the
    index has to name one of them. *)
Lemma C4_bank_counterexample :
  MatrixBank.homogeneous Sample.store [0; 1]
  ∧ MatrixBank.init Sample.store Sample.be [0; 1] 2 ∅ = Raise IndexError
  ∧ MatrixBank.homogeneous Sample.store []
  ∧ MatrixBank.init Sample.store Sample.be [] 0 ∅ = Raise IndexError.
Proof.
  split; [| split; [| split]].
  - assert (Hall : ∀ x, x ∈ [0; 1] →
              MatrixBase.traits (Sample.store x)
              = MatrixBase.traits (Sample.store 0)
              ∧ MatrixBase.tags (Sample.store x)
                = MatrixBase.tags (Sample.store 0)).
    { intros x Hx. repeat (apply elem_of_cons in Hx as [-> | Hx]; [done |]).
      by apply elem_of_nil in Hx. }
    intros m m' Hm Hm'.
    destruct (Hall m Hm) as [-> ->]. destruct (Hall m' Hm') as [-> ->]. done.
  - by vm_compute.
  - intros m m' Hm. by apply elem_of_nil in Hm.
  - by vm_compute.
Qed.

(** C5: for every valid index [i] of a bank, setting [active] to [i]
    returns normally, [active] then reads [i], and every attribute that
    normal lookup does not find on the bank resolves to that attribute of
    member [i]; the active member is the very object stored in the bank
    (the same reference, nothing is copied) and the members are unchanged. *)
Theorem C5_bank_active_switch (h : heap) (b : MatrixBank.t) (i : Z) :
  (- Z.of_nat (MatrixBank.len b) ≤ i < Z.of_nat (MatrixBank.len b))%Z →
  ∃ m b',
    MatrixBank.getitem b i = Ok m
    ∧ MatrixBank.set_active i b = (b', Ok tt)
    ∧ MatrixBank.active b' = i
    ∧ MatrixBank._curr_mat b' = m
    ∧ MatrixBank._mats b' = MatrixBank._mats b
    ∧ ∀ a, assoc a (MatrixBank.attrs b') = None →
           MatrixBank.lookup h b' a = MatrixBase.getattr (h m) a.
Proof.
  intros Hi. unfold MatrixBank.len in Hi.
  destruct (py_getitem_valid _ _ Hi) as (m & Hm & _).
  exists m, (MatrixBank.set_curr_mat m (MatrixBank.set_curr_idx i b)).
  rewrite set_active_eq. unfold MatrixBank.getitem. rewrite Hm.
  repeat split. intros a Ha. unfold MatrixBank.lookup. by rewrite Ha.
Qed.

Lemma C5_bank_active_witness :
  ∃ b', MatrixBank.set_active 1 Sample.bank = (b', Ok tt)
        ∧ MatrixBank.active b' = 1%Z
        ∧ MatrixBank.lookup Sample.store b' "offset" = Ok (VInt 32).
Proof.
  destruct (C5_bank_active_switch Sample.store Sample.bank 1)
    as (m & b' & Hm & Hset & Hact & Hcur & _ & Hfwd).
  - unfold MatrixBank.len. simpl. lia.
  - exists b'. split; [exact Hset |]. split; [exact Hact |].
    rewrite Hfwd.
    + injection Hm as <-. reflexivity.
    + rewrite set_active_eq in Hset. injection Hset as <-. reflexivity.
Defined.

(** C8: [rslice] on a bank raises the [RuntimeError] for every bank and
    all bounds, and leaves the bank as it was; the method is the bank's
    own, so the call is never forwarded to the active member. *)
Theorem C8_bank_rslice_rejected (h : heap) (b : MatrixBank.t) (p q : Z) :
  MatrixBank.rslice p q b
  = (b, Raise (RuntimeError "Matrix banks can not be sliced"))
  ∧ MatrixBank.lookup h b "rslice" = Ok (VMethod "MatrixBank" "rslice").
Proof. split; reflexivity. Qed.

(** C10: setting [active] to an index outside the valid range raises
    [IndexError]; afterwards [active] reads the invalid index while the
    active member, and with it every forwarded attribute, is still the
    previous one, so the index the bank reports names no member. *)
Theorem C10_bank_failed_switch (h : heap) (b : MatrixBank.t) (idx : Z) :
  ¬ (- Z.of_nat (MatrixBank.len b) ≤ idx < Z.of_nat (MatrixBank.len b))%Z →
  ∃ b',
    MatrixBank.set_active idx b = (b', Raise IndexError)
    ∧ MatrixBank.active b' = idx
    ∧ MatrixBank._curr_mat b' = MatrixBank._curr_mat b
    ∧ MatrixBank._mats b' = MatrixBank._mats b
    ∧ (∀ a, MatrixBank.getattr h b' a = MatrixBank.getattr h b a)
    ∧ (∀ a, assoc a (MatrixBank.attrs b') = None →
            MatrixBank.lookup h b' a
            = MatrixBase.getattr (h (MatrixBank._curr_mat b)) a)
    ∧ MatrixBank.getitem b' (MatrixBank.active b') = Raise IndexError.
Proof.
  intros Hidx. unfold MatrixBank.len in Hidx.
  exists (MatrixBank.set_curr_idx idx b).
  rewrite set_active_eq, (py_getitem_invalid _ _ Hidx).
  repeat split.
  - intros a Ha. unfold MatrixBank.lookup. by rewrite Ha.
  - unfold MatrixBank.getitem. simpl. by apply py_getitem_invalid.
Qed.

Lemma C10_bank_failed_switch_witness :
  ∃ b', MatrixBank.set_active 2 Sample.bank = (b', Raise IndexError)
        ∧ MatrixBank.active b' = 2%Z
        ∧ MatrixBank.lookup Sample.store b' "offset" = Ok (VInt 0).
Proof.
  destruct (C10_bank_failed_switch Sample.store Sample.bank 2)
    as (b' & Hset & Hact & Hcur & _ & _ & Hfwd & _).
  - unfold MatrixBank.len. simpl. lia.
  - exists b'. split; [exact Hset |]. split; [exact Hact |].
    rewrite Hfwd; [reflexivity |].
    rewrite set_active_eq in Hset. injection Hset as <-. reflexivity.
Defined.

(** ** Fixed-width arithmetic *)

Section wrap.
Implicit Types (t : np.int_dtype) (a b z : Z).
Local Open Scope Z_scope.

Lemma half_double t : 2 ^ np.bits t = 2 * 2 ^ (np.bits t - 1).
Proof. by destruct t. Qed.

Lemma wrap_in_range t z : np.in_range t z → np.wrap t z = z.
Proof.
  unfold np.in_range, np.wrap. intros Hz. rewrite half_double in *.
  rewrite Z.mod_small; lia.
Qed.

Lemma wrap_range t z : np.in_range t (np.wrap t z).
Proof.
  unfold np.in_range, np.wrap.
  pose proof (Z.mod_pos_bound (z + 2 ^ (np.bits t - 1)) (2 ^ np.bits t))
    as Hb.
  rewrite half_double in *. destruct t; simpl in *; lia.
Qed.

Lemma wrap_add_l t a b : np.wrap t (np.wrap t a + b) = np.wrap t (a + b).
Proof.
  unfold np.wrap. f_equal.
  replace ((a + 2 ^ (np.bits t - 1)) `mod` 2 ^ np.bits t
           - 2 ^ (np.bits t - 1) + b + 2 ^ (np.bits t - 1))
    with ((a + 2 ^ (np.bits t - 1)) `mod` 2 ^ np.bits t + b) by lia.
  rewrite Zplus_mod_idemp_l. f_equal. lia.
Qed.

Lemma wrap_add_mid t a b c :
  np.wrap t (a + np.wrap t b + c) = np.wrap t (a + b + c).
Proof.
  replace (a + np.wrap t b + c) with (np.wrap t b + (a + c)) by lia.
  rewrite wrap_add_l. f_equal. lia.
Qed.

End wrap.

(** ** Arrays *)

Section arrays.
Implicit Types (a b : np.ndarray) (ix : list nat) (i k : nat) (v : Z).

Lemma where_eq_from_spec (l : list ref) (m : ref) k i :
  i ∈ np.where_eq_from k l m ↔ ∃ j, i = k + j ∧ l !! j = Some m.
Proof.
  revert k. induction l as [| x l IH]; intros k; simpl.
  - split; [by intros ?%elem_of_nil | by intros (j & _ & ?)].
  - destruct (decide (x = m)) as [-> | Hne].
    + rewrite elem_of_cons, IH. split.
      * intros [-> | (j & -> & Hj)].
        -- exists 0. split; [lia | done].
        -- exists (S j). split; [lia | done].
      * intros ([| j] & -> & Hj); [left; lia |].
        right. exists j. split; [lia | done].
    + rewrite IH. split.
      * intros (j & -> & Hj). exists (S j). split; [lia | done].
      * intros ([| j] & -> & Hj); [simpl in Hj; congruence |].
        exists j. split; [lia | done].
Qed.

Lemma where_eq_spec (l : list ref) (m : ref) i :
  i ∈ np.where_eq l m ↔ l !! i = Some m.
Proof.
  unfold np.where_eq. rewrite where_eq_from_spec. split.
  - by intros (j & -> & Hj).
  - intros Hi. by exists i.
Qed.

Lemma foldl_insert_length (d : list Z) ix (w : Z) :
  length (foldl (λ d i, <[i := w]> d) d ix) = length d.
Proof.
  revert d. induction ix as [| j ix IH]; intros d; simpl; [done |].
  by rewrite IH, length_insert.
Qed.

Lemma foldl_insert_lookup (d : list Z) ix (w : Z) i :
  foldl (λ d i, <[i := w]> d) d ix !! i
  = if decide (i ∈ ix ∧ i < length d) then Some w else d !! i.
Proof.
  revert d. induction ix as [| j ix IH]; intros d; cbn [foldl].
  - case_decide as H; [| done]. destruct H as [?%elem_of_nil _]. done.
  - rewrite IH, length_insert.
    destruct (decide (i ∈ ix ∧ i < length d)) as [[Hin Hlt] | Hn].
    { rewrite decide_True; [done | split; [by right | done]]. }
    destruct (decide (i = j)) as [-> | Hne].
    + destruct (decide (j < length d)) as [Hlt | Hge].
      * rewrite list_lookup_insert_eq by done.
        rewrite decide_True; [done | split; [by left | done]].
      * rewrite list_insert_ge by lia.
        rewrite decide_False; [done |]. by intros [_ ?].
    + rewrite list_lookup_insert_ne by done.
      rewrite decide_False; [done |].
      intros [[? | Hin]%elem_of_cons Hlt]; [done |]. by apply Hn.
Qed.

Lemma put_fits a ix v :
  np.in_range (np.dtype a) v →
  np.put a ix v
  = Ok {| np.dtype := np.dtype a;
          np.data := foldl (λ d i, <[i := v]> d) (np.data a) ix |}.
Proof. intros Hv. unfold np.put. by rewrite decide_True. Qed.

Lemma put_overflow a ix v :
  ¬ np.in_range (np.dtype a) v → np.put a ix v = Raise OverflowError.
Proof. intros Hv. unfold np.put. by rewrite decide_False. Qed.

(** What an assignment that returns has done. *)
Lemma put_Ok a ix v b :
  np.put a ix v = Ok b →
  np.in_range (np.dtype a) v
  ∧ np.dtype b = np.dtype a
  ∧ length (np.data b) = length (np.data a)
  ∧ (∀ i, i ∈ ix → i < length (np.data a) → np.data b !! i = Some v)
  ∧ (∀ i, i ∉ ix → np.data b !! i = np.data a !! i).
Proof.
  unfold np.put. case_decide as Hv; [| done]. intros [= <-]. simpl.
  split; [done |]. split; [done |].
  split; [apply foldl_insert_length |]. split.
  - intros i Hin Hlt. rewrite foldl_insert_lookup. by rewrite decide_True.
  - intros i Hin. rewrite foldl_insert_lookup. rewrite decide_False; [done |].
    by intros [? _].
Qed.

Lemma empty_length junk n t : length (np.data (np.empty junk n t)) = n.
Proof. unfold np.empty. simpl. by rewrite length_fmap, length_seq. Qed.

Lemma column_Ok (A : np.ndarray2) (j : Z) c :
  np.column A j = Ok c →
  ∃ k, py_index (np.ncol2 A) j = Some k
       ∧ k < np.ncol2 A
       ∧ np.dtype c = np.dtype2 A
       ∧ length (np.data c) = np.nrow2 A
       ∧ ∀ i, i < np.nrow2 A → np.data c !! i = Some (np.at2 A i k).
Proof.
  unfold np.column. destruct (py_index _ j) as [k |] eqn:Hk; [| done].
  intros [= <-]. exists k. simpl.
  split; [done |]. split; [by apply py_index_Some in Hk as [? _] |].
  split; [done |]. split; [by rewrite length_fmap, length_seq |].
  intros i Hi. rewrite list_lookup_fmap, lookup_seq_lt by done. done.
Qed.

Lemma column_valid (A : np.ndarray2) (j : Z) :
  (- Z.of_nat (np.ncol2 A) ≤ j < Z.of_nat (np.ncol2 A))%Z →
  ∃ c, np.column A j = Ok c.
Proof.
  intros Hj. destruct (py_index_valid _ _ Hj) as (k & Hk & _).
  unfold np.column. rewrite Hk. by eexists.
Qed.

Lemma binop_same_length f a b :
  length (np.data a) = length (np.data b) →
  np.binop f a b
  = Ok {| np.dtype := np.result_type (np.dtype a) (np.dtype b);
          np.data := zip_with
                       (λ x y, np.wrap (np.result_type (np.dtype a)
                                          (np.dtype b)) (f x y))
                       (np.data a) (np.data b) |}.
Proof.
  intros Hlen. unfold np.binop, np.broadcast. by rewrite decide_True.
Qed.

Lemma binop_Ok_same_length f a b c :
  length (np.data a) = length (np.data b) →
  np.binop f a b = Ok c →
  np.dtype c = np.result_type (np.dtype a) (np.dtype b)
  ∧ length (np.data c) = length (np.data a)
  ∧ ∀ i x y, np.data a !! i = Some x → np.data b !! i = Some y →
      np.data c !! i
      = Some (np.wrap (np.result_type (np.dtype a) (np.dtype b)) (f x y)).
Proof.
  intros Hlen. rewrite binop_same_length by done. intros [= <-]. simpl.
  split; [done |]. split.
  - rewrite length_zip_with. lia.
  - intros i x y Hx Hy. rewrite lookup_zip_with, Hx. simpl.
    by rewrite Hy.
Qed.

Lemma binop_compatible f a b :
  np.compatible (length (np.data a)) (length (np.data b)) →
  ∃ c, np.binop f a b = Ok c
       ∧ length (np.data c)
         = np.broadcast_length (length (np.data a)) (length (np.data b)).
Proof.
  unfold np.compatible, np.broadcast_length, np.binop, np.broadcast.
  intros Hc. destruct (decide (length (np.data a) = length (np.data b)))
    as [Heq | Hne].
  - eexists. split; [done |]. simpl. rewrite length_zip_with.
    case_decide; lia.
  - destruct (np.data a) as [| x [| x' xs]]; destruct (np.data b)
      as [| y [| y' ys]]; simpl in *; try lia;
      (eexists; split; [done |]); simpl;
      rewrite ?length_zip_with; simpl; rewrite ?length_replicate; lia.
Qed.


End arrays.

(** ** Views *)

(** First occurrences are one way to enumerate the distinct objects. *)
Lemma distinct_enumerates (matmap : list ref) :
  View.enumerates (View.distinct matmap) matmap.
Proof.
  split; [apply NoDup_remove_dups |].
  intros m. apply elem_of_remove_dups.
Qed.

Section view.
Variable h : heap.
Variable lacks : ref → list string.
Variables junk_o junk_l : nat → Z.
Implicit Types (ms matmap : list ref) (rcmap stridemap : np.ndarray2)
  (vshape : list Z) (v : View.t) (ol : np.ndarray * np.ndarray).

Lemma attr_has {B} m a (x : B) :
  a ∉ lacks m → View.attr lacks m a x = Ok x.
Proof. intros Ha. unfold View.attr. by rewrite decide_False. Qed.

Lemma attr_lacks {B} m a (x : B) :
  a ∈ lacks m → View.attr lacks m a x = Raise (AttributeError a).
Proof. intros Ha. unfold View.attr. by rewrite decide_True. Qed.

Lemma attr_Ok {B} m a (x y : B) :
  View.attr lacks m a x = Ok y → (a ∉ lacks m) ∧ y = x.
Proof. unfold View.attr. case_decide; [done |]. by intros [= <-]. Qed.

(** The test of the extent check, and of the element type check. *)
Lemma attr_test_false {B} `{!EqDecision B} m a (x r : B) :
  (b ← View.attr lacks m a x; Ok (bool_decide (b ≠ r))) = Ok false →
  (a ∉ lacks m) ∧ x = r.
Proof.
  unfold View.attr. case_decide as Ha; [done |]. simpl. intros [= Hb].
  apply bool_decide_eq_false_1 in Hb. split; [done |].
  by destruct (decide (x = r)).
Qed.

(** A round of the loop that returns. *)
Lemma fill_Ok matmap ol m ol' :
  View.fill h lacks matmap ol m = Ok ol' →
  ("offset" ∉ lacks m) ∧ ("leaddim" ∉ lacks m)
  ∧ np.put ol.1 (np.where_eq matmap m) (MatrixBase.offset (h m)) = Ok ol'.1
  ∧ np.put ol.2 (np.where_eq matmap m) (MatrixBase.leaddim (h m))
    = Ok ol'.2.
Proof.
  unfold View.fill.
  destruct (View.attr lacks m "offset" _) as [vo |] eqn:Ho;
    cbn [mbind result_bind]; [| done].
  destruct (View.attr lacks m "leaddim" _) as [vl |] eqn:Hl;
    cbn [mbind result_bind]; [| done].
  apply attr_Ok in Ho as [Ho ->]. apply attr_Ok in Hl as [Hl ->].
  destruct (np.put ol.1 _ _) as [o |]; cbn [mbind result_bind]; [| done].
  destruct (np.put ol.2 _ _) as [l |]; cbn [mbind result_bind]; [| done].
  by intros [= <-].
Qed.

(** A round of the loop on an object that has the two attributes. *)
Lemma fill_has matmap ol m :
  "offset" ∉ lacks m → "leaddim" ∉ lacks m →
  View.fill h lacks matmap ol m
  = (o ← np.put ol.1 (np.where_eq matmap m) (MatrixBase.offset (h m));
     l ← np.put ol.2 (np.where_eq matmap m) (MatrixBase.leaddim (h m));
     Ok (o, l)).
Proof.
  intros Ho Hl. unfold View.fill. by rewrite !attr_has by done.
Qed.

(** A round of the loop on a matrix whose offset and leading dimension
    fit. *)
Lemma fill_fits matmap ol m :
  "offset" ∉ lacks m → "leaddim" ∉ lacks m →
  np.in_range (np.dtype ol.1) (MatrixBase.offset (h m)) →
  np.in_range (np.dtype ol.2) (MatrixBase.leaddim (h m)) →
  ∃ ol', View.fill h lacks matmap ol m = Ok ol'.
Proof.
  intros Ho Hl Hfo Hfl. rewrite fill_has by done.
  rewrite (put_fits ol.1), (put_fits ol.2) by done. by eexists.
Qed.

(** The loop gives every point the offset and the leading dimension of
    its own matrix, whatever the arrays held before and in whatever order
    the matrices are visited; it returns only when every matrix has the
    two attributes and both values fit the element type. *)
Lemma fill_py_for matmap ms (o l : np.ndarray) ol :
  py_for (View.fill h lacks matmap) (o, l) ms = Ok ol →
  np.dtype ol.1 = np.dtype o ∧ np.dtype ol.2 = np.dtype l
  ∧ length (np.data ol.1) = length (np.data o)
  ∧ length (np.data ol.2) = length (np.data l)
  ∧ (∀ m, m ∈ ms →
       ("offset" ∉ lacks m) ∧ ("leaddim" ∉ lacks m)
       ∧ np.in_range (np.dtype o) (MatrixBase.offset (h m))
       ∧ np.in_range (np.dtype l) (MatrixBase.leaddim (h m)))
  ∧ ∀ i m, matmap !! i = Some m → m ∈ ms →
      (i < length (np.data o) →
       np.data ol.1 !! i = Some (MatrixBase.offset (h m)))
      ∧ (i < length (np.data l) →
         np.data ol.2 !! i = Some (MatrixBase.leaddim (h m))).
Proof.
  revert ol. induction ms as [| x ms IH] using rev_ind; intros ol.
  { simpl. intros [= <-]. simpl. do 4 (split; [done |]).
    split; [intros m Hm | intros i m _ Hm]; by apply elem_of_nil in Hm. }
  rewrite py_for_snoc.
  destruct (py_for _ (o, l) ms) as [ol0 |]; cbn [mbind result_bind];
    [| done].
  destruct (IH ol0 eq_refl) as (Hdo & Hdl & Hlo & Hll & Hhas & Hpts).
  intros (Hxo & Hxl & Hpo & Hpl)%fill_Ok.
  apply put_Ok in Hpo as (Hfo & Hdo' & Hlo' & Hino & Hnoto).
  apply put_Ok in Hpl as (Hfl & Hdl' & Hll' & Hinl & Hnotl).
  split; [congruence |]. split; [congruence |].
  split; [congruence |]. split; [congruence |]. split.
  - intros m [Hm | ->%list_elem_of_singleton]%elem_of_app; [by apply Hhas |].
    rewrite <- Hdo, <- Hdl. done.
  - intros i m Hi Hm.
    assert (Hcase : m = x ∨ (m ≠ x ∧ m ∈ ms)).
    { destruct (decide (m = x)); [by left | right].
      apply elem_of_app in Hm as [? | ?%list_elem_of_singleton]; done. }
    destruct Hcase as [-> | [Hne Hin]].
    + split; intros Hlt.
      * apply Hino; [by apply where_eq_spec | lia].
      * apply Hinl; [by apply where_eq_spec | lia].
    + rewrite Hnoto, Hnotl by (rewrite where_eq_spec; congruence).
      by apply Hpts.
Qed.

(** The loop returns when every matrix has the two attributes and both
    values fit. *)
Lemma fill_py_for_fits matmap ms (o l : np.ndarray) :
  (∀ m, m ∈ ms →
     ("offset" ∉ lacks m) ∧ ("leaddim" ∉ lacks m)
     ∧ np.in_range (np.dtype o) (MatrixBase.offset (h m))
     ∧ np.in_range (np.dtype l) (MatrixBase.leaddim (h m))) →
  ∃ ol, py_for (View.fill h lacks matmap) (o, l) ms = Ok ol.
Proof.
  induction ms as [| x ms IH] using rev_ind; intros Hall; [by eexists |].
  destruct IH as [ol0 Hol0].
  { intros m Hm. apply Hall, elem_of_app. by left. }
  rewrite py_for_snoc, Hol0. cbn [mbind result_bind].
  destruct (fill_py_for _ _ _ _ _ Hol0) as (Hdo & Hdl & _).
  destruct (Hall x) as (Ho & Hl & Hfo & Hfl);
    [apply elem_of_app; right; by apply list_elem_of_singleton |].
  apply fill_fits; [done | done | by rewrite Hdo | by rewrite Hdl].
Qed.

(** The loop stops at the first matrix whose offset or leading dimension
    does not fit. *)
Lemma fill_py_for_overflow matmap ms (o l : np.ndarray) :
  (∀ m, m ∈ ms → ("offset" ∉ lacks m) ∧ "leaddim" ∉ lacks m) →
  (∃ m, m ∈ ms ∧ ¬ (np.in_range (np.dtype o) (MatrixBase.offset (h m))
                     ∧ np.in_range (np.dtype l)
                         (MatrixBase.leaddim (h m)))) →
  py_for (View.fill h lacks matmap) (o, l) ms = Raise OverflowError.
Proof.
  clear junk_o junk_l.
  revert o l. induction ms as [| x ms IH]; intros o l Hhas (m & Hm & Hbad).
  { by apply elem_of_nil in Hm. }
  destruct (Hhas x) as [Ho Hl]; [by left |].
  cbn [py_for]. rewrite fill_has by done. cbn [fst snd].
  destruct (decide (np.in_range (np.dtype o) (MatrixBase.offset (h x))))
    as [Hfo | Hfo]; [| by rewrite (put_overflow o) by done].
  rewrite (put_fits o) by done. cbn [mbind result_bind].
  destruct (decide (np.in_range (np.dtype l) (MatrixBase.leaddim (h x))))
    as [Hfl | Hfl]; [| by rewrite (put_overflow l) by done].
  rewrite (put_fits l) by done. cbn [mbind result_bind].
  apply IH; [intros y Hy; apply Hhas; by right |].
  apply elem_of_cons in Hm as [-> | Hm]; [tauto |]. by exists m.
Qed.

(** The two arrays after the loop of a view over [matmap]. *)
Lemma filled matmap ms ol :
  View.enumerates ms matmap →
  py_for (View.fill h lacks matmap)
    (np.empty junk_o (length matmap) np.int32,
     np.empty junk_l (length matmap) np.int32) ms = Ok ol →
  np.dtype ol.1 = np.int32 ∧ np.dtype ol.2 = np.int32
  ∧ length (np.data ol.1) = length matmap
  ∧ length (np.data ol.2) = length matmap
  ∧ ∀ i m, matmap !! i = Some m →
      np.data ol.1 !! i
      = Some (np.wrap np.int32 (MatrixBase.offset (h m)))
      ∧ np.data ol.2 !! i
        = Some (np.wrap np.int32 (MatrixBase.leaddim (h m))).
Proof.
  intros [_ Hms] Hol.
  destruct (fill_py_for _ _ _ _ _ Hol) as (Hdo & Hdl & Hlo & Hll & Hhas & Hpts).
  rewrite !empty_length in *. do 4 (split; [done |]).
  intros i m Hi.
  assert (Hm : m ∈ ms) by (apply Hms; by eapply list_elem_of_lookup_2).
  assert (Hlt : i < length matmap) by (by eapply lookup_lt_Some).
  destruct (Hhas m Hm) as (_ & _ & Hfo & Hfl).
  destruct (Hpts i m Hi Hm) as [Ho Hl].
  rewrite !wrap_in_range by done. split; [by apply Ho | by apply Hl].
Qed.

(** What a successful construction went through. *)
Lemma init_Ok ms be matmap rcmap stridemap vshape tgs v :
  View.init h lacks junk_o junk_l ms be matmap rcmap stridemap vshape tgs
  = Ok v →
  ∃ m0 rows disp base cols mp,
    View.get_nvrow vshape = Ok (View.nvrow v)
    ∧ View.get_nvcol vshape = Ok (View.nvcol v)
    ∧ View.n v = length matmap
    ∧ View._mats v = ms
    ∧ py_getitem ms 0 = Ok m0
    ∧ View.basedata v = MatrixBase.basedata (h m0)
    ∧ View.refdtype v = MatrixBase.dtype (h m0)
    ∧ (∀ m, m ∈ ms →
         MatrixBase.isinstance (h m) (matrix_cls be) = true
         ∧ MatrixBase.basedata (h m) = MatrixBase.basedata (h m0)
         ∧ MatrixBase.dtype (h m) = MatrixBase.dtype (h m0))
    ∧ ∃ ol,
        py_for (View.fill h lacks matmap)
          (np.empty junk_o (length matmap) np.int32,
           np.empty junk_l (length matmap) np.int32) ms = Ok ol
        ∧ (∀ m, m ∈ ms → ("basedata" ∉ lacks m) ∧ "dtype" ∉ lacks m)
        ∧ np.column rcmap 0 = Ok rows
        ∧ np.mul rows ol.2 = Ok disp
        ∧ np.add ol.1 disp = Ok base
        ∧ np.column rcmap 1 = Ok cols
        ∧ np.add base cols = Ok mp
        ∧ View.mapping v = np.newaxis mp
        ∧ (if decide (View.nvrow v > 1)%Z
           then ∃ s0 rs, np.column stridemap 0 = Ok s0
                         ∧ np.mul s0 ol.2 = Ok rs
                         ∧ View.rstrides v = Some (np.newaxis rs)
           else View.rstrides v = None)
        ∧ (if decide (View.nvcol v > 1)%Z
           then ∃ sl, np.column stridemap (-1) = Ok sl
                      ∧ View.cstrides v = Some (np.newaxis sl)
           else View.cstrides v = None).
Proof.
  intros Hv. unfold View.init in Hv.
  destruct (View.get_nvrow vshape) as [nvrow |] eqn:Hnr;
    cbn [mbind result_bind] in Hv; [| done].
  destruct (View.get_nvcol vshape) as [nvcol |] eqn:Hnc;
    cbn [mbind result_bind] in Hv; [| done].
  destruct (py_getitem ms 0) as [m0 |] eqn:Hm0;
    cbn [mbind result_bind] in Hv; [| done].
  destruct (View.attr lacks m0 "basedata" (MatrixBase.basedata (h m0)))
    as [bd |] eqn:Hbd; cbn [mbind result_bind] in Hv; [| done].
  apply attr_Ok in Hbd as [_ ->].
  destruct (View.attr lacks m0 "dtype" (MatrixBase.dtype (h m0)))
    as [dt |] eqn:Hdt; cbn [mbind result_bind] in Hv; [| done].
  apply attr_Ok in Hdt as [_ ->].
  destruct (existsb (λ m, negb (MatrixBase.isinstance (h m) (matrix_cls be)))
              ms) eqn:Hcls; [done |].
  destruct (py_any (λ m, b ← View.attr lacks m "basedata"
                                 (MatrixBase.basedata (h m));
                         Ok (bool_decide (b ≠ MatrixBase.basedata (h m0))))
              ms) as [[|] |] eqn:Hext;
    cbn [mbind result_bind] in Hv; [done | | done].
  destruct (py_any (λ m, d ← View.attr lacks m "dtype"
                                 (MatrixBase.dtype (h m));
                         Ok (bool_decide (d ≠ MatrixBase.dtype (h m0))))
              ms) as [[|] |] eqn:Hmix;
    cbn [mbind result_bind] in Hv; [done | | done].
  destruct (py_for (View.fill h lacks matmap) _ ms) as [ol |] eqn:Hol;
    cbn [mbind result_bind] in Hv; [| done].
  destruct (np.column rcmap 0) as [rows |] eqn:Hrows;
    cbn [mbind result_bind] in Hv; [| done].
  destruct (np.mul rows ol.2) as [disp |] eqn:Hdisp;
    cbn [mbind result_bind] in Hv; [| done].
  destruct (np.add ol.1 disp) as [base |] eqn:Hbs;
    cbn [mbind result_bind] in Hv; [| done].
  destruct (np.column rcmap 1) as [cols |] eqn:Hcols;
    cbn [mbind result_bind] in Hv; [| done].
  destruct (np.add base cols) as [mp |] eqn:Hmp;
    cbn [mbind result_bind] in Hv; [| done].
  exists m0, rows, disp, base, cols, mp.
  pose proof (py_any_false _ _ Hext) as Hext'.
  pose proof (py_any_false _ _ Hmix) as Hmix'.
  assert (Hchecks : ∀ m, m ∈ ms →
         MatrixBase.isinstance (h m) (matrix_cls be) = true
         ∧ MatrixBase.basedata (h m) = MatrixBase.basedata (h m0)
         ∧ MatrixBase.dtype (h m) = MatrixBase.dtype (h m0)).
  { intros m Hm.
    rewrite existsb_false_iff in Hcls. specialize (Hcls m Hm).
    apply negb_false_iff in Hcls.
    destruct (attr_test_false _ _ _ _ (Hext' m Hm)) as [_ ?].
    destruct (attr_test_false _ _ _ _ (Hmix' m Hm)) as [_ ?]. done. }
  assert (Hhas : ∀ m, m ∈ ms → ("basedata" ∉ lacks m) ∧ "dtype" ∉ lacks m).
  { intros m Hm.
    destruct (attr_test_false _ _ _ _ (Hext' m Hm)) as [? _].
    destruct (attr_test_false _ _ _ _ (Hmix' m Hm)) as [? _]. done. }
  destruct (decide (nvrow > 1)%Z) as [Hr | Hr];
    destruct (decide (nvcol > 1)%Z) as [Hc | Hc];
    cbn [mbind result_bind] in Hv.
  - destruct (np.column stridemap 0) as [s0 |] eqn:Hs0;
      cbn [mbind result_bind] in Hv; [| done].
    destruct (np.mul s0 ol.2) as [rs |] eqn:Hrs;
      cbn [mbind result_bind] in Hv; [| done].
    destruct (np.column stridemap (-1)) as [sl |] eqn:Hsl;
      cbn [mbind result_bind] in Hv; [| done].
    injection Hv as <-. cbn.
    do 8 (split; [done |]). exists ol. do 8 (split; [done |]).
    split; case_decide; try done; eauto 10.
  - destruct (np.column stridemap 0) as [s0 |] eqn:Hs0;
      cbn [mbind result_bind] in Hv; [| done].
    destruct (np.mul s0 ol.2) as [rs |] eqn:Hrs;
      cbn [mbind result_bind] in Hv; [| done].
    injection Hv as <-. cbn.
    do 8 (split; [done |]). exists ol. do 8 (split; [done |]).
    split; case_decide; try done; eauto 10.
  - destruct (np.column stridemap (-1)) as [sl |] eqn:Hsl;
      cbn [mbind result_bind] in Hv; [| done].
    injection Hv as <-. cbn.
    do 8 (split; [done |]). exists ol. do 8 (split; [done |]).
    split; case_decide; try done; eauto 10.
  - injection Hv as <-. cbn.
    do 8 (split; [done |]). exists ol. do 8 (split; [done |]).
    split; case_decide; done.
Qed.

(** The arrays that make up the mapping of a successful construction
    over per-point index pairs. *)
Lemma mapping_entries ms be matmap rcmap stridemap vshape tgs v :
  View.enumerates ms matmap →
  View.per_point matmap rcmap →
  View.init h lacks junk_o junk_l ms be matmap rcmap stridemap vshape tgs
  = Ok v →
  np.nrow2 (View.mapping v) = 1
  ∧ np.ncol2 (View.mapping v) = length matmap
  ∧ np.dtype2 (View.mapping v) = View.index_type rcmap
  ∧ ∀ i m, matmap !! i = Some m →
      np.at2 (View.mapping v) 0 i
      = np.wrap (View.index_type rcmap)
          (np.wrap np.int32 (MatrixBase.offset (h m))
           + np.at2 rcmap i 0 * np.wrap np.int32 (MatrixBase.leaddim (h m))
           + np.at2 rcmap i 1).
Proof.
  intros Hms Hpp Hv.
  destruct (init_Ok _ _ _ _ _ _ _ _ Hv)
    as (m0 & rows & disp & base & cols & mp & _ & _ & _ & _ & _ & _ & _ & _
        & ol & Hol & _ & Hrows & Hdisp & Hbase & Hcols & Hmp & Hmap & _).
  destruct (filled matmap ms ol Hms Hol) as (Hdo & Hdl & Hlo & Hll & Hfill).
  apply column_Ok in Hrows as (k0 & Hk0 & _ & Hdr & Hlr & Hr).
  apply column_Ok in Hcols as (k1 & Hk1 & _ & Hdc & Hlc & Hc).
  apply py_index_nonneg in Hk0 as ->; [| done].
  apply py_index_nonneg in Hk1 as ->; [| done].
  red in Hpp.
  apply binop_Ok_same_length in Hdisp as (Hdd & Hld & Hd); [| lia].
  apply binop_Ok_same_length in Hbase as (Hdb & Hlb & Hb); [| lia].
  apply binop_Ok_same_length in Hmp as (Hdm & Hlm & Hm); [| lia].
  assert (E1 : np.result_type (np.dtype rows) (np.dtype ol.2)
               = View.index_type rcmap) by (by rewrite Hdr, Hdl).
  assert (E2 : np.result_type (np.dtype ol.1) (np.dtype disp)
               = View.index_type rcmap).
  { rewrite Hdd, E1, Hdo. unfold View.index_type.
    by destruct (np.dtype2 rcmap). }
  assert (E3 : np.result_type (np.dtype base) (np.dtype cols)
               = View.index_type rcmap).
  { rewrite Hdb, E2, Hdc. unfold View.index_type.
    by destruct (np.dtype2 rcmap). }
  rewrite E1 in Hd. rewrite E2 in Hb. rewrite E3 in Hm, Hdm.
  rewrite Hmap. simpl. split; [done |]. split; [lia |]. split; [done |].
  intros i m Hi.
  assert (Hlt : i < np.nrow2 rcmap) by (rewrite Hpp; by eapply lookup_lt_Some).
  destruct (Hfill i m Hi) as [Ho Hl].
  specialize (Hd i _ _ (Hr i Hlt) Hl).
  specialize (Hb i _ _ Ho Hd).
  specialize (Hm i _ _ Hb (Hc i Hlt)).
  apply nth_lookup_Some with (d := 0%Z) in Hm. rewrite Hm.
  by rewrite wrap_add_l, wrap_add_mid.
Qed.

End view.

(** C1 (amended): for every successfully constructed view over per-point
    index pairs, the mapping is a single row with one entry per point; the
    entry of point [i] is [offset + row * leaddim + col] for the matrix and
    the index pair of that point, computed in fixed-width integers: offset
    and leading dimension are stored as [int32], and the sum is reduced to
    the signed range of the result element type.  It is that integer itself
    whenever offset and leading dimension fit [int32] and the sum fits the
    result type.  With offset 0 and leading dimension 8 the point (2, 3)
    maps to 19. *)
Theorem C1_view_mapping (h : heap) (lacks : ref → list string)
    (junk_o junk_l : nat → Z) (ms : list ref) (be : Backend)
    (matmap : list ref)
    (rcmap stridemap : np.ndarray2) (vshape : list Z) (tgs : gset string)
    (v : View.t) :
  View.enumerates ms matmap →
  View.per_point matmap rcmap →
  View.init h lacks junk_o junk_l ms be matmap rcmap stridemap vshape tgs
  = Ok v →
  np.nrow2 (View.mapping v) = 1
  ∧ np.ncol2 (View.mapping v) = View.n v
  ∧ View.n v = length matmap
  ∧ ∀ i m, matmap !! i = Some m →
      let r := np.at2 rcmap i 0 in
      let c := np.at2 rcmap i 1 in
      np.at2 (View.mapping v) 0 i
      = np.wrap (View.index_type rcmap)
          (np.wrap np.int32 (MatrixBase.offset (h m))
           + r * np.wrap np.int32 (MatrixBase.leaddim (h m)) + c)
      ∧ (np.in_range np.int32 (MatrixBase.offset (h m)) →
         np.in_range np.int32 (MatrixBase.leaddim (h m)) →
         np.in_range (View.index_type rcmap) (View.displacement h m r c) →
         np.at2 (View.mapping v) 0 i = View.displacement h m r c)
      ∧ (MatrixBase.offset (h m) = 0%Z → MatrixBase.leaddim (h m) = 8%Z →
         r = 2%Z → c = 3%Z →
         np.at2 (View.mapping v) 0 i = 19%Z).
Proof.
  intros Hms Hpp Hv.
  destruct (mapping_entries _ _ _ _ _ _ _ _ _ _ _ _ Hms Hpp Hv)
    as (Hrow & Hcol & _ & Hent).
  destruct (init_Ok _ _ _ _ _ _ _ _ _ _ _ _ Hv)
    as (_ & _ & _ & _ & _ & _ & _ & _ & Hn & _).
  split; [done |]. split; [congruence |]. split; [done |].
  intros i m Hi r c. rewrite (Hent i m Hi). fold r c.
  split; [done |]. split.
  - intros Ho Hl Hd. rewrite (wrap_in_range _ _ Ho), (wrap_in_range _ _ Hl).
    by apply wrap_in_range.
  - intros -> -> -> ->. by destruct (View.index_type rcmap).
Qed.

Lemma C1_view_mapping_witness :
  ∃ v, View.init Sample.store Sample.lacks Sample.junk Sample.junk [0]
         Sample.be [0] Sample.rc_small Sample.sm_unit [] ∅ = Ok v
       ∧ np.ncol2 (View.mapping v) = 1
       ∧ np.at2 (View.mapping v) 0 0 = 19%Z.
Proof.
  pose proof (C1_view_mapping Sample.store Sample.lacks Sample.junk
                Sample.junk [0]
                Sample.be [0] Sample.rc_small Sample.sm_unit [] ∅) as H.
  destruct (View.init Sample.store Sample.lacks Sample.junk Sample.junk [0]
              Sample.be [0]
              Sample.rc_small Sample.sm_unit [] ∅) as [v | e] eqn:E;
    [| by vm_compute in E].
  exists v. split; [reflexivity |].
  destruct (H v) as (_ & Hcol & Hn & Hpt).
  - split; [apply NoDup_singleton | done].
  - reflexivity.
  - reflexivity.
  - split; [by rewrite Hcol, Hn |].
    by apply (Hpt 0 0 eq_refl).
Defined.

(** The specification's statement in unbounded integers fails: offset and
    leading dimension are [int32] arrays, and with [int32] index pairs the
    sum is an [int32] too.  For a matrix with leading dimension 65536 the
    element (32768, 0) lies 2^31 elements from the start of the extent; the
    mapping holds -2^31.  And the operands are broadcast: an index map of
    two rows for a single point gives a mapping of two entries. *)
Lemma C1_view_mapping_counterexample :
  (∃ v, View.init Sample.store Sample.lacks Sample.junk Sample.junk [5]
          Sample.be [5] Sample.rc_big Sample.sm_unit [] ∅ = Ok v
        ∧ View.enumerates [5] [5]
        ∧ View.per_point [5] Sample.rc_big
        ∧ np.in_range np.int32 (np.at2 Sample.rc_big 0 0)
        ∧ np.in_range np.int32 (np.at2 Sample.rc_big 0 1)
        ∧ np.in_range np.int32 (MatrixBase.offset (Sample.store 5))
        ∧ np.in_range np.int32 (MatrixBase.leaddim (Sample.store 5))
        ∧ np.at2 (View.mapping v) 0 0 = (-2147483648)%Z
        ∧ View.displacement Sample.store 5 (np.at2 Sample.rc_big 0 0)
            (np.at2 Sample.rc_big 0 1) = 2147483648%Z
        ∧ np.at2 (View.mapping v) 0 0
          ≠ View.displacement Sample.store 5 (np.at2 Sample.rc_big 0 0)
              (np.at2 Sample.rc_big 0 1))
  ∧ (∃ v, View.init Sample.store Sample.lacks Sample.junk Sample.junk [0]
            Sample.be [0] Sample.rc_two Sample.sm_unit [] ∅ = Ok v
          ∧ View.n v = 1
          ∧ np.ncol2 (View.mapping v) = 2).
Proof.
  split.
  - eexists. split; [by vm_compute |].
    split; [split; [apply NoDup_singleton | done] |].
    split; [reflexivity |].
    unfold np.in_range. simpl. repeat split; try lia; by vm_compute.
  - eexists. split; [by vm_compute |]. done.
Qed.

(** C6 (amended): a successfully constructed view over a per-point stride
    map has the row-stride array exactly when [nvrow > 1] and the
    column-stride array exactly when [nvcol > 1]; otherwise the attribute
    is absent.  Each is a single row with one entry per point.  The row
    stride of point [i] is [stridemap[i, 0] * leaddim] of that point's
    matrix computed in fixed-width integers (the leading dimension stored
    as [int32], the product reduced to the signed range of the result
    element type), hence that product itself whenever it fits; the column
    stride of point [i] is [stridemap[i, -1]]. *)
Theorem C6_view_strides (h : heap) (lacks : ref → list string)
    (junk_o junk_l : nat → Z)
    (ms : list ref) (be : Backend) (matmap : list ref)
    (rcmap stridemap : np.ndarray2) (vshape : list Z) (tgs : gset string)
    (v : View.t) :
  View.enumerates ms matmap →
  View.per_point matmap stridemap →
  View.init h lacks junk_o junk_l ms be matmap rcmap stridemap vshape tgs
  = Ok v →
  (is_Some (View.rstrides v) ↔ (View.nvrow v > 1)%Z)
  ∧ (is_Some (View.cstrides v) ↔ (View.nvcol v > 1)%Z)
  ∧ (∀ rs, View.rstrides v = Some rs →
       np.nrow2 rs = 1 ∧ np.ncol2 rs = View.n v
       ∧ ∀ i m, matmap !! i = Some m →
           let s := np.at2 stridemap i 0 in
           np.at2 rs 0 i
           = np.wrap (View.index_type stridemap)
               (s * np.wrap np.int32 (MatrixBase.leaddim (h m)))
           ∧ (np.in_range np.int32 (MatrixBase.leaddim (h m)) →
              np.in_range (View.index_type stridemap)
                (s * MatrixBase.leaddim (h m)) →
              np.at2 rs 0 i = (s * MatrixBase.leaddim (h m))%Z))
  ∧ (∀ cs, View.cstrides v = Some cs →
       np.nrow2 cs = 1 ∧ np.ncol2 cs = View.n v
       ∧ np.dtype2 cs = np.dtype2 stridemap
       ∧ ∀ i, i < View.n v →
           np.at2 cs 0 i = np.at2 stridemap i (np.ncol2 stridemap - 1)).
Proof.
  intros Hms Hpp Hv.
  destruct (init_Ok _ _ _ _ _ _ _ _ _ _ _ _ Hv)
    as (_ & _ & _ & _ & _ & _ & _ & _ & Hn & _ & _ & _ & _ & _
        & ol & Hol & _ & _ & _ & _ & _ & _ & _ & Hrs & Hcs).
  destruct (filled h lacks junk_o junk_l matmap ms ol Hms Hol)
    as (_ & Hdl & _ & Hll & Hfill).
  red in Hpp.
  split; [| split; [| split]].
  - destruct (decide (View.nvrow v > 1)%Z) as [Hgt | Hle].
    + destruct Hrs as (s0 & rs & _ & _ & ->). split; [done | by eexists].
    + rewrite Hrs. split; [by intros [? ?] | done].
  - destruct (decide (View.nvcol v > 1)%Z) as [Hgt | Hle].
    + destruct Hcs as (sl & _ & ->). split; [done | by eexists].
    + rewrite Hcs. split; [by intros [? ?] | done].
  - intros rs' Hsome. destruct (decide (View.nvrow v > 1)%Z); [| congruence].
    destruct Hrs as (s0 & rs & Hs0 & Hmul & Heq).
    rewrite Heq in Hsome. injection Hsome as <-.
    apply column_Ok in Hs0 as (k & Hk & _ & Hds & Hls & Hs).
    apply py_index_nonneg in Hk as ->; [| done].
    apply binop_Ok_same_length in Hmul as (Hdr & Hlr & Hr); [| lia].
    simpl. split; [done |]. split; [lia |].
    intros i m Hi.
    assert (Hlt : i < np.nrow2 stridemap)
      by (rewrite Hpp; by eapply lookup_lt_Some).
    destruct (Hfill i m Hi) as [_ Hl].
    specialize (Hr i _ _ (Hs i Hlt) Hl).
    apply nth_lookup_Some with (d := 0%Z) in Hr. rewrite Hr, Hds, Hdl.
    split; [done |].
    intros Hld Hfit. rewrite (wrap_in_range _ _ Hld). by apply wrap_in_range.
  - intros cs' Hsome. destruct (decide (View.nvcol v > 1)%Z); [| congruence].
    destruct Hcs as (sl & Hsl & Heq).
    rewrite Heq in Hsome. injection Hsome as <-.
    apply column_Ok in Hsl as (k & Hk & _ & Hds & Hls & Hs).
    apply py_index_last in Hk as ->.
    simpl. split; [done |]. split; [lia |]. split; [done |].
    intros i Hi. apply nth_lookup_Some. apply Hs. lia.
Qed.

Lemma C6_view_strides_witness :
  ∃ v, View.init Sample.store Sample.lacks Sample.junk Sample.junk [0]
         Sample.be [0] Sample.rc_small Sample.sm_unit [3; 1]%Z ∅ = Ok v
       ∧ is_Some (View.rstrides v)
       ∧ View.cstrides v = None.
Proof.
  pose proof (C6_view_strides Sample.store Sample.lacks Sample.junk
                Sample.junk [0]
                Sample.be [0] Sample.rc_small Sample.sm_unit [3; 1]%Z ∅)
    as H.
  destruct (View.init Sample.store Sample.lacks Sample.junk Sample.junk [0]
              Sample.be [0]
              Sample.rc_small Sample.sm_unit [3; 1]%Z ∅) as [v | e] eqn:E;
    [| by vm_compute in E].
  exists v. split; [reflexivity |].
  destruct (H v) as (Hr & Hc & _).
  - split; [apply NoDup_singleton | done].
  - reflexivity.
  - reflexivity.
  - split.
    + apply Hr. injection E as <-. simpl. lia.
    + destruct (View.cstrides v) as [cs |] eqn:Hcs; [| done].
      assert (Hgt : (View.nvcol v > 1)%Z) by (apply Hc; by eexists).
      injection E as <-. simpl in Hgt. lia.
Defined.

(** The specification's statement in unbounded integers fails: with an
    [int32] stride map the product is an [int32]; a row stride of 65536
    rows in a matrix with leading dimension 65536 is 2^32 elements, and the
    array holds 0.  And the column strides are the last column of the
    stride map whatever its number of rows: two rows for a single point
    give two entries. *)
Lemma C6_view_strides_counterexample :
  (∃ v rs, View.init Sample.store Sample.lacks Sample.junk Sample.junk [5]
             Sample.be [5] Sample.rc_big Sample.sm_big [2; 1]%Z ∅ = Ok v
        ∧ View.enumerates [5] [5]
        ∧ View.per_point [5] Sample.sm_big
        ∧ np.in_range np.int32 (np.at2 Sample.sm_big 0 0)
        ∧ np.in_range np.int32 (MatrixBase.leaddim (Sample.store 5))
        ∧ (View.nvrow v > 1)%Z
        ∧ View.rstrides v = Some rs
        ∧ np.at2 rs 0 0 = 0%Z
        ∧ (np.at2 Sample.sm_big 0 0
           * MatrixBase.leaddim (Sample.store 5%nat))%Z = 4294967296%Z)
  ∧ (∃ v cs, View.init Sample.store Sample.lacks Sample.junk Sample.junk [0]
               Sample.be [0] Sample.rc_small Sample.sm_two [2]%Z ∅ = Ok v
          ∧ View.n v = 1
          ∧ View.cstrides v = Some cs
          ∧ np.ncol2 cs = 2).
Proof.
  split.
  - eexists. eexists. split; [by vm_compute |].
    split; [split; [apply NoDup_singleton | done] |].
    split; [reflexivity |].
    unfold np.in_range. simpl. repeat split; lia.
  - eexists. eexists. split; [by vm_compute |]. done.
Qed.

(** ** Multiplicities and validation *)

Lemma py_getitem_last {A} (l : list A) x :
  py_getitem l (-1) = Ok x → last l = Some x.
Proof.
  unfold py_getitem.
  destruct (py_index (length l) (-1)) as [k |] eqn:Hk; simpl; [| done].
  apply py_index_last in Hk as ->.
  destruct (l !! (length l - 1)) as [y |] eqn:Hy; [| done]. intros [= <-].
  rewrite last_lookup. by replace (pred (length l)) with (length l - 1) by lia.
Qed.

Lemma get_nvrow_total vshape : ∃ r, View.get_nvrow vshape = Ok r.
Proof.
  unfold View.get_nvrow. case_decide as Hlen; [| by eexists].
  destruct (py_getitem_valid vshape (-2)) as (r & Hr & _); [lia |].
  by exists r.
Qed.

Lemma get_nvcol_total vshape : ∃ c, View.get_nvcol vshape = Ok c.
Proof.
  unfold View.get_nvcol. case_decide as Hlen; [| by eexists].
  destruct (py_getitem_valid vshape (-1)) as (c & Hc & _); [lia |].
  by exists c.
Qed.

(** C9: the row multiplicity of every shape is defined: it is the
    second-to-last entry of the shape when the shape has exactly two
    entries and 1 for every other length, three or more entries included;
    the column multiplicity of every shape is defined: it is the last
    entry of a non-empty shape and 1 for the empty shape; and these two
    numbers are the [nvrow] and [nvcol] of every view built for the
    shape. *)
Theorem C9_view_multiplicities (h : heap) (lacks : ref → list string)
    (junk_o junk_l : nat → Z) (ms : list ref) (be : Backend)
    (matmap : list ref) (rcmap stridemap : np.ndarray2) (vshape : list Z)
    (tgs : gset string) :
  ∃ r c,
    View.get_nvrow vshape = Ok r
    ∧ View.get_nvcol vshape = Ok c
    ∧ (length vshape = 2 → vshape !! (length vshape - 2) = Some r)
    ∧ (length vshape ≠ 2 → r = 1%Z)
    ∧ (vshape ≠ [] → last vshape = Some c)
    ∧ (vshape = [] → c = 1%Z)
    ∧ ∀ v,
        View.init h lacks junk_o junk_l ms be matmap rcmap stridemap vshape
          tgs = Ok v →
        View.nvrow v = r ∧ View.nvcol v = c.
Proof.
  destruct (get_nvrow_total vshape) as [r Hr].
  destruct (get_nvcol_total vshape) as [c Hc].
  exists r, c. split; [done |]. split; [done |].
  split; [| split; [| split; [| split]]].
  - intros Hlen. unfold View.get_nvrow in Hr.
    rewrite decide_True in Hr by done.
    destruct vshape as [| a [| b [| d l]]]; try done.
    injection Hr as <-. done.
  - intros Hlen. unfold View.get_nvrow in Hr.
    rewrite decide_False in Hr by done. congruence.
  - intros Hne. unfold View.get_nvcol in Hc. rewrite decide_True in Hc.
    + by apply py_getitem_last.
    + destruct vshape; [done | simpl; lia].
  - intros ->. unfold View.get_nvcol in Hc. simpl in Hc. congruence.
  - intros v Hv.
    destruct (init_Ok _ _ _ _ _ _ _ _ _ _ _ _ Hv)
      as (_ & _ & _ & _ & _ & _ & Hr' & Hc' & _).
    split; congruence.
Qed.

Lemma C9_view_multiplicities_witness :
  (∃ v, View.init Sample.store Sample.lacks Sample.junk Sample.junk [0]
          Sample.be [0] Sample.rc_small Sample.sm_unit [3; 4]%Z ∅ = Ok v
        ∧ View.nvrow v = 3%Z
        ∧ View.nvcol v = 4%Z)
  ∧ (∃ v, View.init Sample.store Sample.lacks Sample.junk Sample.junk [0]
            Sample.be [0] Sample.rc_small Sample.sm_unit [4; 3; 5]%Z ∅
          = Ok v
          ∧ View.nvrow v = 1%Z
          ∧ View.nvcol v = 5%Z)
  ∧ (∃ v, View.init Sample.store Sample.lacks Sample.junk Sample.junk [0]
            Sample.be [0] Sample.rc_small Sample.sm_unit [] ∅ = Ok v
          ∧ View.nvrow v = 1%Z
          ∧ View.nvcol v = 1%Z).
Proof.
  split; [| split].
  - destruct (C9_view_multiplicities Sample.store Sample.lacks Sample.junk
                Sample.junk [0] Sample.be [0] Sample.rc_small Sample.sm_unit
                [3; 4]%Z ∅) as (r & c & _ & _ & Hr & _ & Hc & _ & Hv).
    destruct (View.init Sample.store Sample.lacks Sample.junk Sample.junk
                [0] Sample.be [0] Sample.rc_small Sample.sm_unit [3; 4]%Z ∅)
      as [v | e] eqn:E; [| by vm_compute in E].
    exists v. split; [reflexivity |].
    destruct (Hv v eq_refl) as [-> ->].
    specialize (Hr eq_refl). specialize (Hc ltac:(done)).
    simpl in Hr, Hc. split; congruence.
  - destruct (C9_view_multiplicities Sample.store Sample.lacks Sample.junk
                Sample.junk [0] Sample.be [0] Sample.rc_small Sample.sm_unit
                [4; 3; 5]%Z ∅) as (r & c & _ & _ & _ & Hr & Hc & _ & Hv).
    destruct (View.init Sample.store Sample.lacks Sample.junk Sample.junk
                [0] Sample.be [0] Sample.rc_small Sample.sm_unit
                [4; 3; 5]%Z ∅)
      as [v | e] eqn:E; [| by vm_compute in E].
    exists v. split; [reflexivity |].
    destruct (Hv v eq_refl) as [-> ->].
    specialize (Hr ltac:(simpl; lia)). specialize (Hc ltac:(done)).
    simpl in Hc. split; congruence.
  - destruct (C9_view_multiplicities Sample.store Sample.lacks Sample.junk
                Sample.junk [0] Sample.be [0] Sample.rc_small Sample.sm_unit
                [] ∅) as (r & c & _ & _ & _ & Hr & _ & Hc & Hv).
    destruct (View.init Sample.store Sample.lacks Sample.junk Sample.junk
                [0] Sample.be [0] Sample.rc_small Sample.sm_unit [] ∅)
      as [v | e] eqn:E; [| by vm_compute in E].
    exists v. split; [reflexivity |].
    destruct (Hv v eq_refl) as [-> ->].
    specialize (Hr ltac:(simpl; lia)). specialize (Hc eq_refl).
    split; congruence.
Defined.

Section validation.
Variable h : heap.
Variable lacks : ref → list string.
Variables junk_o junk_l : nat → Z.
Implicit Types (ms matmap : list ref) (rcmap stridemap : np.ndarray2).

Lemma binop_total f (a b : np.ndarray) :
  length (np.data a) = length (np.data b) →
  ∃ c, np.binop f a b = Ok c ∧ length (np.data c) = length (np.data a).
Proof.
  intros Hlen. eexists. split; [by apply binop_same_length |].
  simpl. rewrite length_zip_with. lia.
Qed.



(** The extent check and the element type check over objects that have
    the attribute they read. *)
Lemma any_attr_has {B} `{!EqDecision B} a (f : ref → B) (r : B) ms :
  (∀ m, m ∈ ms → a ∉ lacks m) →
  py_any (λ m, b ← View.attr lacks m a (f m); Ok (bool_decide (b ≠ r))) ms
  = Ok (existsb (λ m, bool_decide (f m ≠ r)) ms).
Proof.
  intros Hhas. apply py_any_pure. intros m Hm.
  by rewrite (attr_has lacks) by auto.
Qed.

(** The constructor up to and including the three checks, over objects
    that have [basedata] and [dtype]. *)
Lemma init_checks m0 ms be matmap rcmap stridemap vshape tgs :
  (∀ m, m ∈ m0 :: ms → ("basedata" ∉ lacks m) ∧ "dtype" ∉ lacks m) →
  View.init h lacks junk_o junk_l (m0 :: ms) be matmap rcmap stridemap
    vshape tgs
  = if existsb (λ m, negb (MatrixBase.isinstance (h m) (matrix_cls be)))
         (m0 :: ms)
    then Raise (TypeError "Incompatible matrix type for view")
    else if existsb (λ m, bool_decide (MatrixBase.basedata (h m)
                                       ≠ MatrixBase.basedata (h m0)))
              (m0 :: ms)
    then Raise (TypeError
      "All viewed matrices must belong to the same allocation extent")
    else if existsb (λ m, bool_decide (MatrixBase.dtype (h m)
                                       ≠ MatrixBase.dtype (h m0)))
              (m0 :: ms)
    then Raise (TypeError "Mixed data types are not supported")
    else View.init h lacks junk_o junk_l (m0 :: ms) be matmap rcmap
           stridemap vshape tgs.
Proof.
  intros Hhas. unfold View.init.
  destruct (get_nvrow_total vshape) as [nr ->].
  destruct (get_nvcol_total vshape) as [nc ->].
  rewrite py_getitem_head. cbn [mbind result_bind].
  destruct (Hhas m0) as [Hb0 Hd0]; [by left |].
  rewrite (attr_has lacks m0 "basedata"), (attr_has lacks m0 "dtype")
    by done.
  cbn [mbind result_bind].
  rewrite (any_attr_has "basedata" (λ m, MatrixBase.basedata (h m)))
    by (intros m Hm; by apply Hhas).
  rewrite (any_attr_has "dtype" (λ m, MatrixBase.dtype (h m)))
    by (intros m Hm; by apply Hhas).
  cbn [mbind result_bind].
  destruct (existsb (λ m, negb (MatrixBase.isinstance (h m) (matrix_cls be)))
              (m0 :: ms)); [done |].
  destruct (existsb (λ m, bool_decide (MatrixBase.basedata (h m)
                                       ≠ MatrixBase.basedata (h m0)))
              (m0 :: ms)); [done |].
  by destruct (existsb (λ m, bool_decide (MatrixBase.dtype (h m)
                                          ≠ MatrixBase.dtype (h m0)))
                 (m0 :: ms)).
Qed.

(** Two elements that differ under [f]: one of them differs from [m0]. *)
Lemma differs_from {B} `{!EqDecision B} (f : ref → B) (l : list ref)
    m0 m m' :
  m ∈ l → m' ∈ l → f m ≠ f m' →
  existsb (λ x, bool_decide (f x ≠ f m0)) l = true.
Proof.
  intros Hm Hm' Hne. apply existsb_true_iff.
  destruct (decide (f m = f m0)) as [Heq | Hd].
  - exists m'. split; [done |]. apply bool_decide_eq_true_2. congruence.
  - exists m. split; [done |]. by apply bool_decide_eq_true_2.
Qed.





Lemma init_succeeds ms be matmap rcmap stridemap vshape tgs :
  View.enumerates ms matmap →
  matmap ≠ [] →
  View.consistent h be matmap →
  View.readable lacks matmap →
  View.fits h matmap →
  View.usable matmap rcmap stridemap vshape →
  ∃ v, View.init h lacks junk_o junk_l ms be matmap rcmap stridemap vshape
         tgs = Ok v.
Proof.
  intros [_ Hms] Hne [Hcls Hsame] Hread Hfits (Hrcc & Hrc & Hrs & Hcs).
  destruct ms as [| m0 ms].
  { destruct matmap as [| x l]; [done |].
    assert (x ∈ []) as ?%elem_of_nil by (apply Hms; left). done. }
  assert (Hhas : ∀ m a, m ∈ m0 :: ms →
            a ∈ ["basedata"; "dtype"; "offset"; "leaddim"]%string →
            a ∉ lacks m).
  { intros m a Hm Ha. apply Hread; [by apply Hms | done]. }
  assert (Hm0 : m0 ∈ matmap) by (apply Hms; left).
  unfold View.init.
  destruct (get_nvrow_total vshape) as [nr Hnr].
  destruct (get_nvcol_total vshape) as [nc Hnc].
  rewrite Hnr, Hnc, py_getitem_head. cbn [mbind result_bind].
  rewrite (attr_has lacks m0 "basedata"), (attr_has lacks m0 "dtype")
    by (apply Hhas; [by left | rewrite !elem_of_cons; tauto]).
  cbn [mbind result_bind].
  replace (existsb (λ m, negb (MatrixBase.isinstance (h m) (matrix_cls be)))
             (m0 :: ms)) with false; cycle 1.
  { symmetry. apply existsb_false_iff. intros x Hx.
    apply negb_false_iff, Hcls, Hms, Hx. }
  rewrite (any_attr_has "basedata" (λ m, MatrixBase.basedata (h m)))
    by (intros m Hm; apply Hhas; [done | rewrite !elem_of_cons; tauto]).
  cbn [mbind result_bind].
  replace (existsb (λ m, bool_decide (MatrixBase.basedata (h m)
                                      ≠ MatrixBase.basedata (h m0)))
             (m0 :: ms)) with false; cycle 1.
  { symmetry. apply existsb_false_iff. intros x Hx.
    apply bool_decide_eq_false_2. intros Hd. apply Hd.
    apply Hsame; [by apply Hms | done]. }
  rewrite (any_attr_has "dtype" (λ m, MatrixBase.dtype (h m)))
    by (intros m Hm; apply Hhas; [done | rewrite !elem_of_cons; tauto]).
  cbn [mbind result_bind].
  replace (existsb (λ m, bool_decide (MatrixBase.dtype (h m)
                                      ≠ MatrixBase.dtype (h m0)))
             (m0 :: ms)) with false; cycle 1.
  { symmetry. apply existsb_false_iff. intros x Hx.
    apply bool_decide_eq_false_2. intros Hd. apply Hd.
    apply Hsame; [by apply Hms | done]. }
  destruct (fill_py_for_fits h lacks matmap (m0 :: ms)
              (np.empty junk_o (length matmap) np.int32)
              (np.empty junk_l (length matmap) np.int32)) as [ol Hol].
  { intros m Hm. destruct (Hfits m) as [Hfo Hfl]; [by apply Hms |].
    split; [apply Hhas; [done | rewrite !elem_of_cons; tauto] |].
    split; [apply Hhas; [done | rewrite !elem_of_cons; tauto] |]. done. }
  rewrite Hol. cbn [mbind result_bind].
  destruct (fill_py_for _ _ _ _ _ _ _ Hol) as (_ & _ & Hlo & Hll & _).
  rewrite !empty_length in *.
  assert (Hpos : 1 ≤ length matmap)
    by (destruct matmap; [done | simpl; lia]).
  destruct (column_valid rcmap 0) as [rows Hrows]; [lia |].
  rewrite Hrows. cbn [mbind result_bind].
  apply column_Ok in Hrows as (_ & _ & _ & _ & Hlr & _).
  unfold np.compatible in Hrc.
  destruct (binop_compatible Z.mul rows ol.2) as (disp & Hdisp & Hld).
  { unfold np.compatible. lia. }
  unfold np.mul, np.add. rewrite Hdisp. cbn [mbind result_bind].
  unfold np.broadcast_length in Hld.
  destruct (binop_compatible Z.add ol.1 disp) as (base & Hbase & Hlb).
  { unfold np.compatible. case_decide; lia. }
  rewrite Hbase. cbn [mbind result_bind].
  unfold np.broadcast_length in Hlb.
  destruct (column_valid rcmap 1) as [cols Hcols]; [lia |].
  rewrite Hcols. cbn [mbind result_bind].
  apply column_Ok in Hcols as (_ & _ & _ & _ & Hlc & _).
  destruct (binop_compatible Z.add base cols) as (mp & Hmp & _).
  { unfold np.compatible. repeat case_decide; lia. }
  rewrite Hmp. cbn [mbind result_bind].
  destruct (decide (nr > 1)%Z) as [Hr | Hr]; cbn [mbind result_bind].
  - destruct (Hrs nr Hnr Hr) as [Hsc Hsr].
    destruct (column_valid stridemap 0) as [s0 Hs0]; [lia |].
    rewrite Hs0. cbn [mbind result_bind].
    apply column_Ok in Hs0 as (_ & _ & _ & _ & Hls & _).
    destruct (binop_compatible Z.mul s0 ol.2) as (rs & -> & _).
    { unfold np.compatible in *. lia. }
    cbn [mbind result_bind].
    destruct (decide (nc > 1)%Z) as [Hc | Hc]; cbn [mbind result_bind];
      [| by eexists].
    destruct (column_valid stridemap (-1)) as [sl ->]; [lia |].
    by eexists.
  - destruct (decide (nc > 1)%Z) as [Hc | Hc]; cbn [mbind result_bind];
      [| by eexists].
    specialize (Hcs nc Hnc Hc).
    destruct (column_valid stridemap (-1)) as [sl ->]; [lia |].
    by eexists.
Qed.


End validation.

(** The conditions of the sample store: no object of [l] lacks an
    attribute, and offsets and leading dimensions fit. *)
Lemma sample_readable (l : list ref) :
  (∀ m, m ∈ l → Sample.lacks m = []) → View.readable Sample.lacks l.
Proof. intros Hl m a Hm _. rewrite (Hl m Hm). apply not_elem_of_nil. Qed.

Lemma sample_fits (l : list ref) :
  (∀ m, m ∈ l → m < 8) → View.fits Sample.store l.
Proof.
  intros Hl m Hm. specialize (Hl m Hm).
  do 8 (destruct m as [| m]; [unfold np.in_range; simpl; lia |]). lia.
Qed.




(** ** Distributed views *)

(** C7: constructing an [MPIView] calls the backend's view factory with
    the same maps, shape and tags; when that raises, the exception
    propagates and nothing is allocated; otherwise it copies the view's
    [n], [nvrow] and [nvcol] and asks the same backend, in the state the
    view factory left, for one MPI matrix of shape [(nvrow, nvcol, n)]
    with the given tags, which becomes [mpimat].  A constructed [MPIView]
    always arose in this way. *)
Theorem C7_mpiview_init {St : Type} `{!BackendFactory St} (be : Backend)
    (matmap : list ref) (rcmap stridemap : np.ndarray2) (vshape : list Z)
    (tgs : gset string) (s : St) :
  (∀ s1 e, backend_view be matmap rcmap stridemap vshape tgs s
           = (s1, Raise e) →
     MPIView.init be matmap rcmap stridemap vshape tgs s = (s1, Raise e))
  ∧ (∀ s1 v s2 r,
       backend_view be matmap rcmap stridemap vshape tgs s = (s1, Ok v) →
       backend_mpi_matrix be
         (View.nvrow v, View.nvcol v, Z.of_nat (View.n v)) tgs s1 = (s2, r) →
       MPIView.init be matmap rcmap stridemap vshape tgs s
       = (s2, match r with
              | Ok m => Ok {| MPIView.view := v;
                              MPIView.n := View.n v;
                              MPIView.nvrow := View.nvrow v;
                              MPIView.nvcol := View.nvcol v;
                              MPIView.mpimat := m |}
              | Raise e => Raise e
              end))
  ∧ (∀ s2 mv,
       MPIView.init be matmap rcmap stridemap vshape tgs s = (s2, Ok mv) →
       MPIView.n mv = View.n (MPIView.view mv)
       ∧ MPIView.nvrow mv = View.nvrow (MPIView.view mv)
       ∧ MPIView.nvcol mv = View.nvcol (MPIView.view mv)
       ∧ ∃ s1,
           backend_view be matmap rcmap stridemap vshape tgs s
           = (s1, Ok (MPIView.view mv))
           ∧ backend_mpi_matrix be
               (MPIView.nvrow mv, MPIView.nvcol mv, Z.of_nat (MPIView.n mv))
               tgs s1
             = (s2, Ok (MPIView.mpimat mv))).
Proof.
  unfold MPIView.init, mbind, M_bind, mret, M_ret.
  split; [| split].
  - intros s1 e ->. done.
  - intros s1 v s2 r -> ->. by destruct r.
  - intros s2 mv.
    destruct (backend_view be matmap rcmap stridemap vshape tgs s)
      as [s1 [v | e]]; [| done].
    destruct (backend_mpi_matrix be _ tgs s1) as [s2' [m | e]] eqn:Hm;
      [| done].
    intros [= <- <-]. simpl. repeat split; eauto.
Qed.

Lemma C7_mpiview_init_witness :
  ∃ s2 mv,
    MPIView.init Sample.be Sample.matmap_three Sample.rc_three
      Sample.sm_three [2; 3]%Z {["mpi"]} Sample.state = (s2, Ok mv)
    ∧ MPIView.n mv = View.n (MPIView.view mv)
    ∧ MPIView.n mv = 3
    ∧ MPIView.nvrow mv = 2%Z
    ∧ MPIView.nvcol mv = 3%Z
    ∧ MPIView.mpimat mv = 10
    ∧ RefBackend.next s2 = 11
    ∧ MatrixBase.ioshape (RefBackend.objects s2 10) = [2; 3; 3]%Z
    ∧ "mpi" ∈ MatrixBase.tags (RefBackend.objects s2 10).
Proof.
  destruct (MPIView.init Sample.be Sample.matmap_three Sample.rc_three
              Sample.sm_three [2; 3]%Z {["mpi"]} Sample.state)
    as [s2 [mv | e]] eqn:E; [| by vm_compute in E].
  exists s2, mv. split; [reflexivity |].
  destruct (C7_mpiview_init Sample.be Sample.matmap_three Sample.rc_three
              Sample.sm_three [2; 3]%Z {["mpi"]} Sample.state)
    as (_ & _ & Hinv).
  destruct (Hinv s2 mv E) as (Hn & _).
  split; [exact Hn |].
  injection E as <- <-. simpl.
  by repeat split.
Defined.

(** * Further properties *)

(** ** Row slices *)

(** X1: a row slice exists only for a valid range, and every row slice
    lies within its parent: its row count is between 0 and the parent's,
    it has the parent's column count, element type, item size and pitch,
    and its tags are the parent's tags and "slice". *)
Theorem X1_rslice_invariant (h : heap) (be : Backend) (A : ref) (p q : Z)
    (s : MatrixRSlice.t) :
  MatrixRSlice.init h be A p q = Ok s →
  (0 ≤ p ≤ q ∧ q ≤ MatrixBase.nrow (h A))%Z
  ∧ (0 ≤ MatrixRSlice.nrow s ≤ MatrixBase.nrow (h A))%Z
  ∧ MatrixRSlice.nrow s = (q - p)%Z
  ∧ MatrixRSlice.ncol s = MatrixBase.ncol (h A)
  ∧ MatrixRSlice.itemsize s = MatrixBase.itemsize (h A)
  ∧ MatrixRSlice.pitch s = MatrixBase.pitch (h A)
  ∧ "slice" ∈ MatrixRSlice.tags s
  ∧ MatrixBase.tags (h A) ⊆ MatrixRSlice.tags s
  ∧ MatrixRSlice.backend s = be.
Proof.
  unfold MatrixRSlice.init.
  destruct (bool_decide (p < 0)%Z) eqn:Hp; [done |].
  destruct (bool_decide (q > MatrixBase.nrow (h A))%Z) eqn:Hq; [done |].
  destruct (bool_decide (q < p)%Z) eqn:Hqp; [done |].
  apply bool_decide_eq_false_1 in Hp, Hq, Hqp.
  simpl. intros [= <-]. unfold MatrixRSlice.pitch, MatrixBase.pitch. simpl.
  repeat split; try lia; set_solver.
Qed.

Lemma X1_rslice_invariant_witness :
  ∃ s, MatrixRSlice.init Sample.store Sample.be 0 1 3 = Ok s
       ∧ (0 ≤ MatrixRSlice.nrow s ≤ 4)%Z
       ∧ MatrixRSlice.pitch s = 32%Z.
Proof.
  destruct (MatrixRSlice.init Sample.store Sample.be 0 1 3) as [s | e] eqn:E;
    [| by vm_compute in E].
  exists s. split; [reflexivity |].
  destruct (X1_rslice_invariant Sample.store Sample.be 0 1 3 s E)
    as (_ & Hrows & _ & _ & _ & Hpitch & _).
  split; [exact Hrows | exact Hpitch].
Defined.

(** X2: a row slice has the traits of its parent exactly when it covers
    all the parent's rows, and the slice of all rows of a matrix with a
    non-negative row count always exists. *)
Theorem X2_rslice_full_range (h : heap) (be : Backend) (A : ref) :
  (∀ p q s, MatrixRSlice.init h be A p q = Ok s →
     (MatrixRSlice.traits s = MatrixBase.traits (h A)
      ↔ p = 0%Z ∧ q = MatrixBase.nrow (h A)))
  ∧ ((0 ≤ MatrixBase.nrow (h A))%Z →
     ∃ s, MatrixRSlice.init h be A 0 (MatrixBase.nrow (h A)) = Ok s
          ∧ MatrixRSlice.traits s = MatrixBase.traits (h A)).
Proof.
  split.
  - intros p q s Hs. unfold MatrixRSlice.init in Hs.
    destruct (bool_decide (p < 0)%Z) eqn:Hp; [done |].
    destruct (bool_decide (q > MatrixBase.nrow (h A))%Z) eqn:Hq; [done |].
    destruct (bool_decide (q < p)%Z) eqn:Hqp; [done |].
    apply bool_decide_eq_false_1 in Hp, Hq, Hqp.
    simpl in Hs. injection Hs as <-.
    unfold MatrixRSlice.traits, MatrixBase.traits. simpl. split.
    + intros [= Heq]. lia.
    + intros [-> ->]. do 3 f_equal. lia.
  - intros Hn. unfold MatrixRSlice.init.
    rewrite !bool_decide_eq_false_2 by lia. simpl. eexists. split; [done |].
    unfold MatrixRSlice.traits, MatrixBase.traits. simpl. do 3 f_equal. lia.
Qed.

Lemma X2_rslice_full_range_witness :
  ∃ s, MatrixRSlice.init Sample.store Sample.be 0 0 4 = Ok s
       ∧ MatrixRSlice.traits s = MatrixBase.traits (Sample.store 0).
Proof.
  destruct (X2_rslice_full_range Sample.store Sample.be 0) as [_ Hfull].
  apply Hfull. simpl. lia.
Defined.

(** ** Banks *)

(** X3: the outcomes of the bank constructor that are not the success or
    the traits error: an empty list raises [IndexError]; members that
    agree on traits and differ in tags raise the [ValueError] about tags;
    homogeneous members with an initial index outside [-N, N) raise
    [IndexError]. *)
Theorem X3_bank_init_errors (h : heap) (be : Backend) (mats : list ref)
    (initbank : Z) (tgs : gset string) :
  (mats = [] → MatrixBank.init h be mats initbank tgs = Raise IndexError)
  ∧ ((∀ m m', m ∈ mats → m' ∈ mats →
        MatrixBase.traits (h m) = MatrixBase.traits (h m')) →
     (∃ m m', m ∈ mats ∧ m' ∈ mats
              ∧ MatrixBase.tags (h m) ≠ MatrixBase.tags (h m')) →
     MatrixBank.init h be mats initbank tgs
     = Raise (ValueError "Matrices in a bank must share tags"))
  ∧ (MatrixBank.homogeneous h mats →
     ¬ (- Z.of_nat (length mats) ≤ initbank < Z.of_nat (length mats))%Z →
     MatrixBank.init h be mats initbank tgs = Raise IndexError).
Proof.
  split; [| split].
  - intros ->. reflexivity.
  - intros Htr (m & m' & Hm & Hm' & Hne).
    destruct mats as [| m0 rest]; [by apply elem_of_nil in Hm |].
    rewrite bank_init_cons.
    replace (existsb (λ m, bool_decide (MatrixBase.traits (h m)
                                        ≠ MatrixBase.traits (h m0))) rest)
      with false; cycle 1.
    { symmetry. apply existsb_false_iff. intros x Hx.
      apply bool_decide_eq_false_2. intros Hd. apply Hd.
      apply Htr; [by right | by left]. }
    destruct (differs_from_head (λ m, MatrixBase.tags (h m)) _ _ _ _
                Hm Hm' Hne) as (x & Hx & Hd).
    replace (existsb _ rest) with true; [done |].
    symmetry. apply existsb_true_iff. exists x.
    split; [done | by apply bool_decide_eq_true_2].
  - intros Hhom Hidx.
    destruct mats as [| m0 rest]; [reflexivity |].
    rewrite bank_init_cons.
    replace (existsb (λ m, bool_decide (MatrixBase.traits (h m)
                                        ≠ MatrixBase.traits (h m0))) rest)
      with false; cycle 1.
    { symmetry. apply existsb_false_iff. intros x Hx.
      apply bool_decide_eq_false_2. intros Hd. apply Hd.
      apply Hhom; [by right | by left]. }
    replace (existsb (λ m, bool_decide (MatrixBase.tags (h m)
                                        ≠ MatrixBase.tags (h m0))) rest)
      with false; cycle 1.
    { symmetry. apply existsb_false_iff. intros x Hx.
      apply bool_decide_eq_false_2. intros Hd. apply Hd.
      apply Hhom; [by right | by left]. }
    by rewrite (py_getitem_invalid _ _ Hidx).
Qed.

Lemma X3_bank_init_errors_witness :
  MatrixBank.init Sample.store Sample.be [] 0 ∅ = Raise IndexError
  ∧ MatrixBank.init Sample.store Sample.be [0; 4] 0 ∅
    = Raise (ValueError "Matrices in a bank must share tags")
  ∧ MatrixBank.init Sample.store Sample.be [0; 1] (-3) ∅ = Raise IndexError.
Proof.
  assert (Hsame : ∀ (a b : ref) (P : ref → Prop),
            P a → P b → ∀ x, x ∈ [a; b] → P x).
  { intros a b P Ha Hb x Hx.
    repeat (apply elem_of_cons in Hx as [-> | Hx]; [done |]).
    by apply elem_of_nil in Hx. }
  split; [| split].
  - destruct (X3_bank_init_errors Sample.store Sample.be [] 0 ∅)
      as (Hnil & _).
    by apply Hnil.
  - destruct (X3_bank_init_errors Sample.store Sample.be [0; 4] 0 ∅)
      as (_ & Htg & _).
    apply Htg.
    + intros m m' Hm Hm'.
      pose proof (Hsame 0 4 (λ x, MatrixBase.traits (Sample.store x)
                                  = MatrixBase.traits (Sample.store 0))
                    eq_refl eq_refl) as Hall.
      by rewrite (Hall m Hm), (Hall m' Hm').
    + exists 0, 4. split; [by left |]. split; [by right; left |].
      intros Heq.
      assert (Hin : "const" ∈ MatrixBase.tags (Sample.store 0))
        by (rewrite Heq; by vm_compute).
      by vm_compute in Hin.
  - destruct (X3_bank_init_errors Sample.store Sample.be [0; 1] (-3) ∅)
      as (_ & _ & Hidx).
    apply Hidx.
    + intros m m' Hm Hm'.
      pose proof (Hsame 0 1 (λ x, MatrixBase.traits (Sample.store x)
                                  = MatrixBase.traits (Sample.store 0)
                                  ∧ MatrixBase.tags (Sample.store x)
                                    = MatrixBase.tags (Sample.store 0))
                    (conj eq_refl eq_refl) (conj eq_refl eq_refl)) as Hall.
      destruct (Hall m Hm) as [-> ->]. destruct (Hall m' Hm') as [-> ->].
      done.
    + simpl. lia.
Defined.

(** Membership and range of a successful index operation. *)
Lemma py_getitem_Ok {A} (l : list A) (i : Z) (x : A) :
  py_getitem l i = Ok x →
  (- Z.of_nat (length l) ≤ i < Z.of_nat (length l))%Z ∧ x ∈ l.
Proof.
  unfold py_getitem. destruct (py_index (length l) i) as [k |] eqn:Hk;
    simpl; [| done].
  destruct (l !! k) as [y |] eqn:Hy; [| done]. intros [= <-].
  split; [by apply py_index_Some in Hk as [_ ?] |].
  by eapply list_elem_of_lookup_2.
Qed.

(** What a successful run of the bank constructor went through. *)
Lemma bank_init_Ok (h : heap) (be : Backend) (mats : list ref)
    (initbank : Z) (tgs : gset string) (b : MatrixBank.t) :
  MatrixBank.init h be mats initbank tgs = Ok b →
  ∃ m0 rest cur,
    mats = m0 :: rest
    ∧ (∀ m, m ∈ mats →
         MatrixBase.traits (h m) = MatrixBase.traits (h m0)
         ∧ MatrixBase.tags (h m) = MatrixBase.tags (h m0))
    ∧ py_getitem mats initbank = Ok cur
    ∧ b = {| MatrixBank.backend := be;
             MatrixBank.tags := tgs ∪ MatrixBase.tags (h m0);
             MatrixBank._mats := mats;
             MatrixBank._curr_idx := initbank;
             MatrixBank._curr_mat := cur |}.
Proof.
  destruct mats as [| m0 rest]; [done |].
  rewrite bank_init_cons.
  destruct (existsb (λ m, bool_decide (MatrixBase.traits (h m)
                                       ≠ MatrixBase.traits (h m0))) rest)
    eqn:Htr; [done |].
  destruct (existsb (λ m, bool_decide (MatrixBase.tags (h m)
                                       ≠ MatrixBase.tags (h m0))) rest)
    eqn:Htg; [done |].
  destruct (py_getitem (m0 :: rest) initbank) as [cur |] eqn:Hcur; [| done].
  simpl. intros [= <-]. exists m0, rest, cur.
  rewrite existsb_false_iff in Htr, Htg.
  split; [done |]. split; [| done].
  intros m [-> | Hm]%elem_of_cons; [done |].
  specialize (Htr m Hm). specialize (Htg m Hm).
  apply bool_decide_eq_false_1 in Htr, Htg.
  split.
  - by destruct (decide (MatrixBase.traits (h m)
                         = MatrixBase.traits (h m0))).
  - by destruct (decide (MatrixBase.tags (h m)
                         = MatrixBase.tags (h m0))).
Qed.

(** X4: what a constructed bank satisfies: its members are homogeneous,
    the initial index is a valid index, the active member is the member
    that index names and is one of the members, and the bank's tags are
    the extra tags together with the tags of any member. *)
Theorem X4_bank_init_invariant (h : heap) (be : Backend) (mats : list ref)
    (initbank : Z) (tgs : gset string) (b : MatrixBank.t) :
  MatrixBank.init h be mats initbank tgs = Ok b →
  MatrixBank.homogeneous h mats
  ∧ (- Z.of_nat (length mats) ≤ initbank < Z.of_nat (length mats))%Z
  ∧ MatrixBank._mats b = mats
  ∧ MatrixBank.backend b = be
  ∧ bank_coherent b
  ∧ MatrixBank._curr_mat b ∈ mats
  ∧ ∀ m, m ∈ mats → MatrixBank.tags b = tgs ∪ MatrixBase.tags (h m).
Proof.
  intros Hb.
  destruct (bank_init_Ok _ _ _ _ _ _ Hb)
    as (m0 & rest & cur & Hmats & Hhead & Hcur & ->).
  destruct (py_getitem_Ok _ _ _ Hcur) as [Hrange Hin].
  unfold bank_coherent. simpl.
  split.
  { intros m m' Hm Hm'.
    destruct (Hhead m Hm) as [-> ->]. by destruct (Hhead m' Hm') as [-> ->]. }
  do 5 (split; [done |]).
  intros m Hm. by destruct (Hhead m Hm) as [_ ->].
Qed.

Lemma X4_bank_init_invariant_witness :
  ∃ b, MatrixBank.init Sample.store Sample.be [0; 1; 2] (-1) {["mpi"]} = Ok b
       ∧ bank_coherent b
       ∧ MatrixBank._curr_mat b ∈ [0; 1; 2].
Proof.
  destruct (MatrixBank.init Sample.store Sample.be [0; 1; 2] (-1) {["mpi"]})
    as [b | e] eqn:E; [| by vm_compute in E].
  exists b. split; [reflexivity |].
  destruct (X4_bank_init_invariant Sample.store Sample.be [0; 1; 2] (-1)
              {["mpi"]} b E) as (_ & _ & _ & _ & Hco & Hin & _).
  split; [exact Hco | exact Hin].
Defined.

(** X5: a successful switch of the active member determines the bank
    whatever an earlier switch left behind, failed or not: switching to a
    valid [j] after any switch to [i] gives the state that switching to [j]
    directly gives.  In that state the active member is the member [j]
    names, and members, tags and backend are those of the bank before. *)
Theorem X5_bank_switch_overrides (b : MatrixBank.t) (i j : Z) :
  (- Z.of_nat (MatrixBank.len b) ≤ j < Z.of_nat (MatrixBank.len b))%Z →
  ∃ b', MatrixBank.set_active j (MatrixBank.set_active i b).1 = (b', Ok tt)
        ∧ MatrixBank.set_active j b = (b', Ok tt)
        ∧ bank_coherent b'
        ∧ MatrixBank.active b' = j
        ∧ MatrixBank._mats b' = MatrixBank._mats b
        ∧ MatrixBank.tags b' = MatrixBank.tags b
        ∧ MatrixBank.backend b' = MatrixBank.backend b.
Proof.
  intros Hj. unfold MatrixBank.len in Hj.
  destruct (py_getitem_valid _ _ Hj) as (m & Hm & _).
  exists (MatrixBank.set_curr_mat m (MatrixBank.set_curr_idx j b)).
  rewrite !set_active_eq.
  assert (Hmats : MatrixBank._mats
                    (match py_getitem (MatrixBank._mats b) i with
                     | Ok m' => (MatrixBank.set_curr_mat m'
                                   (MatrixBank.set_curr_idx i b), Ok tt)
                     | Raise e => (MatrixBank.set_curr_idx i b, Raise e)
                     end).1 = MatrixBank._mats b)
    by (by destruct (py_getitem (MatrixBank._mats b) i)).
  rewrite Hmats, Hm. unfold bank_coherent. simpl.
  repeat split; try done.
  by destruct (py_getitem (MatrixBank._mats b) i).
Qed.

Lemma X5_bank_switch_overrides_witness :
  ∃ b', MatrixBank.set_active 1 (MatrixBank.set_active 7 Sample.bank).1
        = (b', Ok tt)
        ∧ MatrixBank.set_active 1 Sample.bank = (b', Ok tt)
        ∧ bank_coherent b'.
Proof.
  destruct (X5_bank_switch_overrides Sample.bank 7 1)
    as (b' & H1 & H2 & Hco & _).
  - unfold MatrixBank.len. simpl. lia.
  - exists b'. split; [exact H1 |]. split; [exact H2 | exact Hco].
Defined.

(** X6: in a bank built by the constructor, the traits seen through the
    bank do not depend on the active member: after any successful switch
    the forwarded [traits] are those of every member. *)
Theorem X6_bank_traits_stable (h : heap) (be : Backend) (mats : list ref)
    (initbank : Z) (tgs : gset string) (b b' : MatrixBank.t) (i : Z) :
  MatrixBank.init h be mats initbank tgs = Ok b →
  MatrixBank.set_active i b = (b', Ok tt) →
  MatrixBank.lookup h b' "traits" = MatrixBank.lookup h b "traits"
  ∧ ∀ m, m ∈ mats →
      MatrixBank.lookup h b' "traits"
      = Ok (VTraits (MatrixBase.traits (h m))).
Proof.
  intros Hb Hset.
  destruct (bank_init_Ok _ _ _ _ _ _ Hb)
    as (m0 & rest & cur & Hmats & Hhead & Hcur & ->).
  destruct (py_getitem_Ok _ _ _ Hcur) as [_ Hcin].
  rewrite set_active_eq in Hset. simpl in Hset.
  destruct (py_getitem mats i) as [m' |] eqn:Hm'; [| done].
  injection Hset as <-.
  destruct (py_getitem_Ok _ _ _ Hm') as [_ Hin].
  assert (Hfwd : ∀ c, MatrixBank.lookup h c "traits"
                      = Ok (VTraits (MatrixBase.traits
                                       (h (MatrixBank._curr_mat c)))))
    by done.
  rewrite !Hfwd. simpl.
  destruct (Hhead m' Hin) as [-> _]. split.
  - by destruct (Hhead cur Hcin) as [-> _].
  - intros m Hm. by destruct (Hhead m Hm) as [-> _].
Qed.

Lemma X6_bank_traits_stable_witness :
  ∃ b b', MatrixBank.init Sample.store Sample.be [0; 1; 2] 0 ∅ = Ok b
          ∧ MatrixBank.set_active 2 b = (b', Ok tt)
          ∧ MatrixBank.lookup Sample.store b' "traits"
            = MatrixBank.lookup Sample.store b "traits".
Proof.
  destruct (MatrixBank.init Sample.store Sample.be [0; 1; 2] 0 ∅)
    as [b | e] eqn:E; [| by vm_compute in E].
  destruct (MatrixBank.set_active 2 b) as [b' r] eqn:Es.
  assert (Hr : r = Ok tt).
  { injection E as <-. rewrite set_active_eq in Es. by injection Es as <- <-. }
  subst r. exists b, b'. split; [reflexivity |]. split; [exact Es |].
  by destruct (X6_bank_traits_stable Sample.store Sample.be [0; 1; 2] 0 ∅
                 b b' 2 E Es) as [Heq _].
Defined.

(** X7: the bank stores the active index as it was given.  A negative
    index is not normalised: for [0 ≤ i < N] switching to [i] and to
    [i - N] selects the same member, and [active] then reads [i] in one
    case and [i - N] in the other. *)
Theorem X7_bank_negative_index (b : MatrixBank.t) (i : Z) :
  (0 ≤ i < Z.of_nat (MatrixBank.len b))%Z →
  ∃ b1 b2,
    MatrixBank.set_active i b = (b1, Ok tt)
    ∧ MatrixBank.set_active (i - Z.of_nat (MatrixBank.len b)) b = (b2, Ok tt)
    ∧ MatrixBank._curr_mat b1 = MatrixBank._curr_mat b2
    ∧ MatrixBank.active b1 = i
    ∧ MatrixBank.active b2 = (i - Z.of_nat (MatrixBank.len b))%Z
    ∧ MatrixBank.active b1 ≠ MatrixBank.active b2.
Proof.
  intros Hi. unfold MatrixBank.len in *.
  assert (Hlt : Z.to_nat i < length (MatrixBank._mats b)) by lia.
  destruct (lookup_lt_is_Some_2 _ _ Hlt) as [m Hm].
  assert (H1 : py_getitem (MatrixBank._mats b) i = Ok m).
  { unfold py_getitem, py_index. rewrite decide_True by lia. simpl.
    by rewrite Hm. }
  assert (H2 : py_getitem (MatrixBank._mats b)
                 (i - Z.of_nat (length (MatrixBank._mats b))) = Ok m).
  { unfold py_getitem, py_index.
    rewrite decide_False, decide_True by lia. simpl.
    replace (Z.to_nat (Z.of_nat (length (MatrixBank._mats b))
                       + (i - Z.of_nat (length (MatrixBank._mats b)))))
      with (Z.to_nat i) by lia.
    by rewrite Hm. }
  eexists _, _. rewrite !set_active_eq, H1, H2.
  split; [done |]. split; [done |]. unfold MatrixBank.active. simpl.
  repeat split; try done. lia.
Qed.

Lemma X7_bank_negative_index_witness :
  ∃ b1 b2,
    MatrixBank.set_active 1 Sample.bank = (b1, Ok tt)
    ∧ MatrixBank.set_active (-1) Sample.bank = (b2, Ok tt)
    ∧ MatrixBank._curr_mat b1 = MatrixBank._curr_mat b2
    ∧ MatrixBank.active b1 ≠ MatrixBank.active b2.
Proof.
  destruct (X7_bank_negative_index Sample.bank 1)
    as (b1 & b2 & H1 & H2 & Hm & _ & _ & Hne).
  - unfold MatrixBank.len. simpl. lia.
  - exists b1, b2. split; [exact H1 |]. split; [exact H2 |].
    split; [exact Hm | exact Hne].
Defined.

(** ** The sample store *)

Lemma sample_three_enumerates :
  View.enumerates [1; 0] Sample.matmap_three
  ∧ View.enumerates [0; 1] Sample.matmap_three.
Proof.
  split; (split; [| intros m; unfold Sample.matmap_three;
                    rewrite !elem_of_cons, !elem_of_nil; tauto]);
    (apply NoDup_cons; split; [| apply NoDup_singleton]);
    by intros ?%list_elem_of_singleton.
Qed.

Lemma sample_three_elements m : m ∈ Sample.matmap_three → m = 0 ∨ m = 1.
Proof.
  unfold Sample.matmap_three. rewrite !elem_of_cons, !elem_of_nil. tauto.
Qed.

Lemma sample_three_consistent :
  View.consistent Sample.store Sample.be Sample.matmap_three.
Proof.
  split.
  - intros m [-> | ->]%sample_three_elements; reflexivity.
  - intros m m' [-> | ->]%sample_three_elements
      [-> | ->]%sample_three_elements; split; reflexivity.
Qed.

Lemma sample_three_readable :
  View.readable Sample.lacks Sample.matmap_three.
Proof.
  apply sample_readable.
  intros m [-> | ->]%sample_three_elements; reflexivity.
Qed.

Lemma sample_three_fits : View.fits Sample.store Sample.matmap_three.
Proof.
  apply sample_fits. intros m [-> | ->]%sample_three_elements; lia.
Qed.

Lemma sample_one_enumerates (a : ref) : View.enumerates [a] [a].
Proof. split; [apply NoDup_singleton | done]. Qed.

Lemma sample_one_consistent (a : ref) :
  MatrixBase.isinstance (Sample.store a) (matrix_cls Sample.be) = true →
  View.consistent Sample.store Sample.be [a].
Proof.
  intros Ha. split.
  - by intros m ->%list_elem_of_singleton.
  - by intros m m' ->%list_elem_of_singleton ->%list_elem_of_singleton.
Qed.

Lemma sample_two_enumerates (a b : ref) :
  a ≠ b → View.enumerates [a; b] [b; a] ∧ View.enumerates [a; b] [a; b].
Proof.
  intros Hab.
  split; (split; [| intros m; rewrite !elem_of_cons, !elem_of_nil; tauto]);
    (apply NoDup_cons; split; [| apply NoDup_singleton]);
    by intros ?%list_elem_of_singleton.
Qed.

(** ** Views: what the constructor depends on *)

Section view_order.
Variable h : heap.
Variable lacks : ref → list string.
Implicit Types (ms matmap : list ref) (rcmap stridemap : np.ndarray2).

Lemma fits_cases matmap :
  View.fits h matmap
  ∨ ∃ m, m ∈ matmap
         ∧ ¬ (np.in_range np.int32 (MatrixBase.offset (h m))
              ∧ np.in_range np.int32 (MatrixBase.leaddim (h m))).
Proof.
  destruct (decide (Forall (λ m,
              np.in_range np.int32 (MatrixBase.offset (h m))
              ∧ np.in_range np.int32 (MatrixBase.leaddim (h m))) matmap))
    as [Hall | Hsome].
  - left. intros m Hm. by apply (proj1 (Forall_forall _ _) Hall).
  - right. apply not_Forall_Exists in Hsome; [| apply _].
    by apply Exists_exists in Hsome.
Qed.

Lemma readable_has matmap m a :
  View.readable lacks matmap → m ∈ matmap →
  a ∈ ["basedata"; "dtype"; "offset"; "leaddim"]%string → a ∉ lacks m.
Proof. intros Hread Hm Ha. by apply Hread. Qed.

(** The two arrays after the loop, in closed form. *)
Lemma filled_closed junk_o junk_l matmap ms :
  View.enumerates ms matmap →
  View.readable lacks matmap →
  View.fits h matmap →
  py_for (View.fill h lacks matmap)
    (np.empty junk_o (length matmap) np.int32,
     np.empty junk_l (length matmap) np.int32) ms
  = Ok ({| np.dtype := np.int32;
           np.data := (λ m, MatrixBase.offset (h m)) <$> matmap |},
        {| np.dtype := np.int32;
           np.data := (λ m, MatrixBase.leaddim (h m)) <$> matmap |}).
Proof.
  intros Hms Hread Hfits. pose proof Hms as [_ Hin].
  destruct (fill_py_for_fits h lacks matmap ms
              (np.empty junk_o (length matmap) np.int32)
              (np.empty junk_l (length matmap) np.int32)) as [ol Hol].
  { intros m Hm%Hin. destruct (Hfits m Hm) as [Hfo Hfl].
    split; [apply (readable_has matmap); [done | done |];
            rewrite !elem_of_cons; tauto |].
    split; [apply (readable_has matmap); [done | done |];
            rewrite !elem_of_cons; tauto |]. done. }
  rewrite Hol. f_equal.
  destruct (fill_py_for _ _ _ _ _ _ _ Hol)
    as (Hdo & Hdl & Hlo & Hll & _ & Hpts).
  rewrite !empty_length in *.
  destruct ol as [[d1 l1] [d2 l2]]. simpl in *. subst d1 d2.
  f_equal; f_equal; apply list_eq; intros i; rewrite list_lookup_fmap.
  - destruct (matmap !! i) as [m |] eqn:Hi; simpl.
    + destruct (Hpts i m Hi) as [Ho _];
        [apply Hin; by eapply list_elem_of_lookup_2 |].
      apply Ho. by eapply lookup_lt_Some.
    + apply lookup_ge_None. apply lookup_ge_None in Hi. lia.
  - destruct (matmap !! i) as [m |] eqn:Hi; simpl.
    + destruct (Hpts i m Hi) as [_ Hl];
        [apply Hin; by eapply list_elem_of_lookup_2 |].
      apply Hl. by eapply lookup_lt_Some.
    + apply lookup_ge_None. apply lookup_ge_None in Hi. lia.
Qed.

(** The loop over matrices of which one has an offset or a leading
    dimension that does not fit. *)
Lemma filled_overflow junk_o junk_l matmap ms :
  View.enumerates ms matmap →
  View.readable lacks matmap →
  (∃ m, m ∈ matmap
        ∧ ¬ (np.in_range np.int32 (MatrixBase.offset (h m))
             ∧ np.in_range np.int32 (MatrixBase.leaddim (h m)))) →
  py_for (View.fill h lacks matmap)
    (np.empty junk_o (length matmap) np.int32,
     np.empty junk_l (length matmap) np.int32) ms
  = Raise OverflowError.
Proof.
  intros [_ Hin] Hread (m & Hm & Hbad).
  apply fill_py_for_overflow.
  - intros x Hx%Hin.
    split; (apply (readable_has matmap); [done | done |]);
      rewrite !elem_of_cons; tauto.
  - exists m. split; [by apply Hin | exact Hbad].
Qed.

Lemma existsb_same_elements {A} (p : A → bool) (l l' : list A) :
  (∀ x, x ∈ l ↔ x ∈ l') → existsb p l = existsb p l'.
Proof.
  intros Hsame.
  destruct (existsb p l) eqn:H1; symmetry.
  - apply existsb_true_iff in H1 as (x & Hx & Hp).
    apply existsb_true_iff. exists x. split; [by apply Hsame | done].
  - rewrite existsb_false_iff in H1. apply existsb_false_iff.
    intros x Hx. apply H1. by apply Hsame.
Qed.

(** Whether some element differs from the reference element does not
    depend on which element of the list is the reference. *)
Lemma existsb_differs_ref {B} `{!EqDecision B} (f : ref → B)
    (l l' : list ref) m0 m0' :
  (∀ x, x ∈ l ↔ x ∈ l') → m0 ∈ l → m0' ∈ l' →
  existsb (λ m, bool_decide (f m ≠ f m0)) l
  = existsb (λ m, bool_decide (f m ≠ f m0')) l'.
Proof.
  intros Hsame H0 H0'.
  destruct (existsb (λ m, bool_decide (f m ≠ f m0)) l) eqn:H1; symmetry.
  - apply existsb_true_iff in H1 as (x & Hx & Hp).
    apply bool_decide_eq_true_1 in Hp.
    apply (differs_from f l' m0' x m0);
      [by apply Hsame | by apply Hsame | done].
  - destruct (existsb (λ m, bool_decide (f m ≠ f m0')) l') eqn:H2; [| done].
    apply existsb_true_iff in H2 as (x & Hx & Hp).
    apply bool_decide_eq_true_1 in Hp.
    rewrite <- H1. symmetry.
    apply (differs_from f l m0 x m0');
      [by apply Hsame | by apply Hsame | done].
Qed.

End view_order.

(** X9: over objects that have the attributes the constructor reads, the
    view it builds does not depend on the order in which the set of
    matrices is iterated, on what the fresh [np.empty] arrays contain, or
    on the tags argument: two runs on the same maps raise the same
    exception or build views that agree on everything but the order of
    [_mats]. *)
Theorem X9_view_order_independent (h : heap) (lacks : ref → list string)
    (junk_o junk_l junk_o' junk_l' : nat → Z) (ms ms' : list ref)
    (be : Backend) (matmap : list ref) (rcmap stridemap : np.ndarray2)
    (vshape : list Z) (tgs tgs' : gset string) :
  View.enumerates ms matmap →
  View.enumerates ms' matmap →
  View.readable lacks matmap →
  match View.init h lacks junk_o junk_l ms be matmap rcmap stridemap vshape
          tgs,
        View.init h lacks junk_o' junk_l' ms' be matmap rcmap stridemap
          vshape tgs'
  with
  | Ok v, Ok v' => view_agree v v' ∧ View._mats v = ms ∧ View._mats v' = ms'
  | Raise e, Raise e' => e = e'
  | _, _ => False
  end.
Proof.
  intros Hms Hms' Hread.
  pose proof Hms as [_ Hin]. pose proof Hms' as [_ Hin'].
  assert (Hsame : ∀ x, x ∈ ms ↔ x ∈ ms')
    by (intros x; by rewrite Hin, Hin').
  pose proof (fits_cases h matmap) as Hcases.
  pose proof (filled_closed h lacks junk_o junk_l matmap ms Hms Hread)
    as Hfill.
  pose proof (filled_closed h lacks junk_o' junk_l' matmap ms' Hms' Hread)
    as Hfill'.
  pose proof (filled_overflow h lacks junk_o junk_l matmap ms Hms Hread)
    as Hover.
  pose proof (filled_overflow h lacks junk_o' junk_l' matmap ms' Hms' Hread)
    as Hover'.
  unfold View.init.
  destruct (View.get_nvrow vshape) as [nr |]; cbn [mbind result_bind];
    [| done].
  destruct (View.get_nvcol vshape) as [nc |]; cbn [mbind result_bind];
    [| done].
  destruct ms as [| m0 ms1]; destruct ms' as [| m0' ms1'].
  - done.
  - assert (m0' ∈ []) as ?%elem_of_nil by (apply Hsame; left). done.
  - assert (m0 ∈ []) as ?%elem_of_nil by (apply Hsame; left). done.
  - assert (Hhas : ∀ m a, (m ∈ m0 :: ms1 ∨ m ∈ m0' :: ms1') →
              a ∈ ["basedata"; "dtype"; "offset"; "leaddim"]%string →
              a ∉ lacks m).
    { intros m a [Hm%Hin | Hm%Hin'] Ha; by apply Hread. }
    rewrite !py_getitem_head. cbn [mbind result_bind].
    rewrite (attr_has lacks m0 "basedata"), (attr_has lacks m0 "dtype"),
      (attr_has lacks m0' "basedata"), (attr_has lacks m0' "dtype")
      by (apply Hhas; [(by left; left) || (by right; left)
                      | rewrite !elem_of_cons; tauto]).
    cbn [mbind result_bind].
    rewrite (existsb_same_elements _ (m0 :: ms1) (m0' :: ms1') Hsame).
    destruct (existsb (λ m, negb (MatrixBase.isinstance (h m)
                (matrix_cls be))) (m0' :: ms1')); [done |].
    rewrite !(any_attr_has lacks "basedata"
                (λ m, MatrixBase.basedata (h m)))
      by (intros m Hm; apply Hhas; [tauto | rewrite !elem_of_cons; tauto]).
    cbn [mbind result_bind].
    rewrite (existsb_differs_ref (λ m, MatrixBase.basedata (h m))
               (m0 :: ms1) (m0' :: ms1') m0 m0' Hsame)
      by (by left).
    destruct (existsb (λ m, bool_decide (MatrixBase.basedata (h m)
                ≠ MatrixBase.basedata (h m0'))) (m0' :: ms1')) eqn:Hbase;
      [done |].
    rewrite !(any_attr_has lacks "dtype" (λ m, MatrixBase.dtype (h m)))
      by (intros m Hm; apply Hhas; [tauto | rewrite !elem_of_cons; tauto]).
    cbn [mbind result_bind].
    rewrite (existsb_differs_ref (λ m, MatrixBase.dtype (h m))
               (m0 :: ms1) (m0' :: ms1') m0 m0' Hsame)
      by (by left).
    destruct (existsb (λ m, bool_decide (MatrixBase.dtype (h m)
                ≠ MatrixBase.dtype (h m0'))) (m0' :: ms1')) eqn:Hdt;
      [done |].
    rewrite existsb_false_iff in Hbase, Hdt.
    assert (H0 : m0 ∈ m0' :: ms1') by (apply Hsame; left).
    pose proof (Hbase m0 H0) as Eb. apply bool_decide_eq_false_1 in Eb.
    pose proof (Hdt m0 H0) as Ed. apply bool_decide_eq_false_1 in Ed.
    assert (Eb' : MatrixBase.basedata (h m0) = MatrixBase.basedata (h m0'))
      by (by destruct (decide (MatrixBase.basedata (h m0)
                               = MatrixBase.basedata (h m0')))).
    assert (Ed' : MatrixBase.dtype (h m0) = MatrixBase.dtype (h m0'))
      by (by destruct (decide (MatrixBase.dtype (h m0)
                               = MatrixBase.dtype (h m0')))).
    rewrite Eb', Ed'.
    destruct Hcases as [Hfits | Hbad];
      [| by rewrite (Hover Hbad), (Hover' Hbad)].
    rewrite (Hfill Hfits), (Hfill' Hfits). cbn [mbind result_bind fst snd].
    destruct (np.column rcmap 0) as [rows |]; cbn [mbind result_bind];
      [| done].
    destruct (np.mul rows _) as [disp |]; cbn [mbind result_bind]; [| done].
    destruct (np.add _ disp) as [base |]; cbn [mbind result_bind]; [| done].
    destruct (np.column rcmap 1) as [cols |]; cbn [mbind result_bind];
      [| done].
    destruct (np.add base cols) as [mp |]; cbn [mbind result_bind]; [| done].
    destruct (if decide (nr > 1)%Z then _ else _) as [rs |];
      cbn [mbind result_bind]; [| done].
    destruct (if decide (nc > 1)%Z then _ else _) as [cs |];
      cbn [mbind result_bind]; [| done].
    unfold view_agree. simpl. done.
Qed.

Lemma X9_view_order_independent_witness :
  ∃ v v',
    View.init Sample.store Sample.lacks Sample.junk Sample.junk [1; 0]
      Sample.be Sample.matmap_three Sample.rc_three Sample.sm_three
      [2; 3]%Z ∅ = Ok v
    ∧ View.init Sample.store Sample.lacks (λ i, Z.of_nat i) (λ _, 7%Z)
        [0; 1] Sample.be Sample.matmap_three Sample.rc_three
        Sample.sm_three [2; 3]%Z {["mpi"]} = Ok v'
    ∧ view_agree v v'.
Proof.
  pose proof (X9_view_order_independent Sample.store Sample.lacks
                Sample.junk Sample.junk (λ i, Z.of_nat i) (λ _, 7%Z)
                [1; 0] [0; 1] Sample.be Sample.matmap_three Sample.rc_three
                Sample.sm_three [2; 3]%Z ∅ {["mpi"]}) as H.
  destruct (View.init Sample.store Sample.lacks Sample.junk Sample.junk
              [1; 0] Sample.be Sample.matmap_three Sample.rc_three
              Sample.sm_three [2; 3]%Z ∅)
    as [v | e] eqn:E; [| by vm_compute in E].
  destruct (View.init Sample.store Sample.lacks (λ i, Z.of_nat i)
              (λ _, 7%Z) [0; 1] Sample.be Sample.matmap_three
              Sample.rc_three Sample.sm_three [2; 3]%Z {["mpi"]})
    as [v' | e'] eqn:E'; [| by vm_compute in E'].
  exists v, v'. split; [reflexivity |]. split; [reflexivity |].
  apply H.
  - apply sample_three_enumerates.
  - apply sample_three_enumerates.
  - apply sample_three_readable.
Defined.

(** ** Views: validation *)

(** X10: what a constructed view guarantees about the matrices it
    references: there is at least one, each is an instance of the
    backend's matrix class, each lies in the extent the view records as
    [basedata] and has the element type it records as [refdtype]; [_mats]
    holds each referenced matrix once and [n] is the number of points. *)
Theorem X10_view_invariant (h : heap) (lacks : ref → list string)
    (junk_o junk_l : nat → Z)
    (ms : list ref) (be : Backend) (matmap : list ref)
    (rcmap stridemap : np.ndarray2) (vshape : list Z) (tgs : gset string)
    (v : View.t) :
  View.enumerates ms matmap →
  View.init h lacks junk_o junk_l ms be matmap rcmap stridemap vshape tgs
  = Ok v →
  matmap ≠ []
  ∧ View.n v = length matmap
  ∧ View.enumerates (View._mats v) matmap
  ∧ View.consistent h be matmap
  ∧ ∀ m, m ∈ matmap →
      MatrixBase.isinstance (h m) (matrix_cls be) = true
      ∧ MatrixBase.basedata (h m) = View.basedata v
      ∧ MatrixBase.dtype (h m) = View.refdtype v.
Proof.
  intros Hms Hv. pose proof Hms as [_ Hin].
  destruct (init_Ok _ _ _ _ _ _ _ _ _ _ _ _ Hv)
    as (m0 & _ & _ & _ & _ & _ & _ & _ & Hn & Hmats & Hm0 & Hb & Hd & Hall
        & _).
  assert (Hpt : ∀ m, m ∈ matmap →
            MatrixBase.isinstance (h m) (matrix_cls be) = true
            ∧ MatrixBase.basedata (h m) = View.basedata v
            ∧ MatrixBase.dtype (h m) = View.refdtype v).
  { intros m Hm%Hin. rewrite Hb, Hd. by apply Hall. }
  split.
  { intros ->. destruct ms as [| x ms1]; [done |].
    assert (x ∈ []) as ?%elem_of_nil by (apply Hin; left). done. }
  split; [done |]. split; [by rewrite Hmats |]. split; [| done].
  split.
  - intros m Hm. by apply Hpt.
  - intros m m' Hm Hm'.
    destruct (Hpt m Hm) as (_ & -> & ->).
    by destruct (Hpt m' Hm') as (_ & -> & ->).
Qed.

Lemma X10_view_invariant_witness :
  ∃ v, View.init Sample.store Sample.lacks Sample.junk Sample.junk [1; 0]
         Sample.be
         Sample.matmap_three Sample.rc_three Sample.sm_three [2; 3]%Z ∅ = Ok v
       ∧ View.n v = 3
       ∧ View.consistent Sample.store Sample.be Sample.matmap_three.
Proof.
  destruct (View.init Sample.store Sample.lacks Sample.junk Sample.junk [1; 0]
              Sample.be
              Sample.matmap_three Sample.rc_three Sample.sm_three [2; 3]%Z ∅)
    as [v | e] eqn:E; [| by vm_compute in E].
  exists v. split; [reflexivity |].
  destruct (X10_view_invariant Sample.store Sample.lacks Sample.junk
              Sample.junk [1; 0]
              Sample.be Sample.matmap_three Sample.rc_three Sample.sm_three
              [2; 3]%Z ∅ v) as (_ & Hn & _ & Hcons & _).
  - split.
    + apply NoDup_cons. split; [| apply NoDup_singleton].
      by intros ?%list_elem_of_singleton.
    + intros m. unfold Sample.matmap_three.
      rewrite !elem_of_cons, !elem_of_nil. tauto.
  - exact E.
  - split; [exact Hn | exact Hcons].
Defined.

(** X11: which exception the view constructor raises for objects it
    does not accept.  The extent and the element type of the first object
    the set yields are read before anything is checked: when that object
    has no [basedata], or has it and has no [dtype], the constructor
    raises [AttributeError] for that attribute, whatever else is wrong.
    After that the class check comes first, then the extent check, then
    the element type check: an object of a foreign class gives
    "Incompatible matrix type for view"; over objects that have
    [basedata] and [dtype], matrices of the right class in different
    extents give the extent message even when element types differ too,
    and the mixed-types message needs matrices of the right class in one
    extent.  None of them depends on the index or stride maps. *)
Theorem X11_view_error_precedence (h : heap) (lacks : ref → list string)
    (junk_o junk_l : nat → Z) (ms : list ref) (be : Backend)
    (matmap : list ref) (rcmap stridemap : np.ndarray2) (vshape : list Z)
    (tgs : gset string) :
  View.enumerates ms matmap →
  (∀ m0, head ms = Some m0 → "basedata" ∈ lacks m0 →
     View.init h lacks junk_o junk_l ms be matmap rcmap stridemap vshape tgs
     = Raise (AttributeError "basedata"))
  ∧ (∀ m0, head ms = Some m0 → "basedata" ∉ lacks m0 →
       "dtype" ∈ lacks m0 →
       View.init h lacks junk_o junk_l ms be matmap rcmap stridemap vshape
         tgs = Raise (AttributeError "dtype"))
  ∧ (∀ m0, head ms = Some m0 → "basedata" ∉ lacks m0 →
       "dtype" ∉ lacks m0 →
       (∃ m, m ∈ matmap
             ∧ MatrixBase.isinstance (h m) (matrix_cls be) = false) →
       View.init h lacks junk_o junk_l ms be matmap rcmap stridemap vshape
         tgs = Raise (TypeError "Incompatible matrix type for view"))
  ∧ ((∀ m, m ∈ matmap → ("basedata" ∉ lacks m) ∧ "dtype" ∉ lacks m) →
     (∀ m, m ∈ matmap →
        MatrixBase.isinstance (h m) (matrix_cls be) = true) →
     (∃ m m', m ∈ matmap ∧ m' ∈ matmap
              ∧ MatrixBase.basedata (h m) ≠ MatrixBase.basedata (h m')) →
     View.init h lacks junk_o junk_l ms be matmap rcmap stridemap vshape tgs
     = Raise (TypeError
         "All viewed matrices must belong to the same allocation extent"))
  ∧ ((∀ m, m ∈ matmap → ("basedata" ∉ lacks m) ∧ "dtype" ∉ lacks m) →
     (∀ m, m ∈ matmap →
        MatrixBase.isinstance (h m) (matrix_cls be) = true) →
     (∀ m m', m ∈ matmap → m' ∈ matmap →
        MatrixBase.basedata (h m) = MatrixBase.basedata (h m')) →
     (∃ m m', m ∈ matmap ∧ m' ∈ matmap
              ∧ MatrixBase.dtype (h m) ≠ MatrixBase.dtype (h m')) →
     View.init h lacks junk_o junk_l ms be matmap rcmap stridemap vshape tgs
     = Raise (TypeError "Mixed data types are not supported")).
Proof.
  intros Hms. pose proof Hms as [_ Hin].
  assert (Hcons : ∀ m, m ∈ matmap → ∃ m0 ms', ms = m0 :: ms').
  { intros m Hm. apply Hin in Hm. destruct ms; [| by eauto].
    by apply elem_of_nil in Hm. }
  assert (Hcls_false : ∀ l, (∀ m, m ∈ l → m ∈ matmap) →
            (∀ m, m ∈ matmap →
               MatrixBase.isinstance (h m) (matrix_cls be) = true) →
            existsb (λ m, negb (MatrixBase.isinstance (h m)
                                  (matrix_cls be))) l = false).
  { intros l Hl Hall. apply existsb_false_iff. intros m Hm.
    by rewrite (Hall m (Hl m Hm)). }
  split; [| split; [| split; [| split]]].
  - intros m0 Hhead Hl. destruct ms as [| x ms1]; [done |].
    injection Hhead as ->. unfold View.init.
    destruct (get_nvrow_total vshape) as [nr ->].
    destruct (get_nvcol_total vshape) as [nc ->].
    rewrite py_getitem_head. cbn [mbind result_bind].
    by rewrite (attr_lacks lacks m0 "basedata") by done.
  - intros m0 Hhead Hb Hl. destruct ms as [| x ms1]; [done |].
    injection Hhead as ->. unfold View.init.
    destruct (get_nvrow_total vshape) as [nr ->].
    destruct (get_nvcol_total vshape) as [nc ->].
    rewrite py_getitem_head. cbn [mbind result_bind].
    rewrite (attr_has lacks m0 "basedata") by done.
    cbn [mbind result_bind].
    by rewrite (attr_lacks lacks m0 "dtype") by done.
  - intros m0 Hhead Hb Hd (m & Hm & Hf). destruct ms as [| x ms1]; [done |].
    injection Hhead as ->. unfold View.init.
    destruct (get_nvrow_total vshape) as [nr ->].
    destruct (get_nvcol_total vshape) as [nc ->].
    rewrite py_getitem_head. cbn [mbind result_bind].
    rewrite (attr_has lacks m0 "basedata"), (attr_has lacks m0 "dtype")
      by done.
    cbn [mbind result_bind].
    replace (existsb (λ m, negb (MatrixBase.isinstance (h m)
                                   (matrix_cls be))) (m0 :: ms1))
      with true; [done |].
    symmetry. apply existsb_true_iff. exists m.
    split; [by apply Hin | by rewrite Hf].
  - intros Hhas Hall (m & m' & Hm & Hm' & Hne).
    destruct (Hcons m Hm) as (m0 & ms1 & ->).
    rewrite init_checks by (intros x Hx; by apply Hhas, Hin).
    rewrite Hcls_false; [| intros x; apply Hin | done].
    rewrite (differs_from (λ x, MatrixBase.basedata (h x)) _ m0 m m');
      [done | by apply Hin | by apply Hin | done].
  - intros Hhas Hall Hext (m & m' & Hm & Hm' & Hne).
    destruct (Hcons m Hm) as (m0 & ms1 & ->).
    rewrite init_checks by (intros x Hx; by apply Hhas, Hin).
    rewrite Hcls_false; [| intros x; apply Hin | done].
    replace (existsb (λ m, bool_decide (MatrixBase.basedata (h m)
                                        ≠ MatrixBase.basedata (h m0)))
               (m0 :: ms1)) with false; cycle 1.
    { symmetry. apply existsb_false_iff. intros x Hx.
      apply bool_decide_eq_false_2. intros Hd. apply Hd.
      apply Hext; apply Hin; [done | by left]. }
    rewrite (differs_from (λ x, MatrixBase.dtype (h x)) _ m0 m m');
      [done | by apply Hin | by apply Hin | done].
Qed.

Lemma X11_view_error_precedence_witness :
  View.init Sample.store Sample.lacks Sample.junk Sample.junk [7; 0]
    Sample.be [0; 7] Sample.rc_two Sample.sm_two [] ∅
  = Raise (AttributeError "basedata")
  ∧ View.init Sample.store Sample.lacks Sample.junk Sample.junk [0; 7]
      Sample.be [0; 7] Sample.rc_two Sample.sm_two [] ∅
    = Raise (TypeError "Incompatible matrix type for view")
  ∧ View.init Sample.store Sample.lacks Sample.junk Sample.junk [3; 2]
      Sample.be [2; 3] Sample.rc_none Sample.sm_none [] ∅
    = Raise (TypeError
        "All viewed matrices must belong to the same allocation extent").
Proof.
  split; [| split].
  - destruct (X11_view_error_precedence Sample.store Sample.lacks
                Sample.junk Sample.junk [7; 0] Sample.be [0; 7]
                Sample.rc_two Sample.sm_two [] ∅) as (Hattr & _).
    { by apply (sample_two_enumerates 7 0). }
    apply (Hattr 7); [reflexivity |]. by left.
  - destruct (X11_view_error_precedence Sample.store Sample.lacks
                Sample.junk Sample.junk [0; 7] Sample.be [0; 7]
                Sample.rc_two Sample.sm_two [] ∅) as (_ & _ & Hcls & _).
    { by apply (sample_two_enumerates 0 7). }
    apply (Hcls 0); [reflexivity | apply not_elem_of_nil
                    | apply not_elem_of_nil |].
    exists 7. split; [by repeat constructor | reflexivity].
  - destruct (X11_view_error_precedence Sample.store Sample.lacks
                Sample.junk Sample.junk [3; 2] Sample.be [2; 3]
                Sample.rc_none Sample.sm_none [] ∅)
      as (_ & _ & _ & Hext & _).
    { by apply (sample_two_enumerates 3 2). }
    apply Hext.
    + intros m Hm.
      repeat (apply elem_of_cons in Hm as [-> | Hm];
              [split; apply not_elem_of_nil |]).
      by apply elem_of_nil in Hm.
    + intros m Hm.
      repeat (apply elem_of_cons in Hm as [-> | Hm]; [reflexivity |]).
      by apply elem_of_nil in Hm.
    + exists 2, 3. split; [by repeat constructor |].
      split; [by repeat constructor | by vm_compute].
Defined.

(** X12: a view without points cannot be built: for an empty [matmap] the
    constructor raises [IndexError], whatever the maps, the shape and the
    tags. *)
Theorem X12_view_empty (h : heap) (lacks : ref → list string)
    (junk_o junk_l : nat → Z) (ms : list ref)
    (be : Backend) (rcmap stridemap : np.ndarray2) (vshape : list Z)
    (tgs : gset string) :
  View.enumerates ms [] →
  View.init h lacks junk_o junk_l ms be [] rcmap stridemap vshape tgs
  = Raise IndexError.
Proof.
  intros [_ Hin]. destruct ms as [| x ms1].
  - unfold View.init.
    destruct (get_nvrow_total vshape) as [nr ->].
    by destruct (get_nvcol_total vshape) as [nc ->].
  - assert (x ∈ []) as ?%elem_of_nil by (apply Hin; left). done.
Qed.

Lemma X12_view_empty_witness :
  View.init Sample.store Sample.lacks Sample.junk Sample.junk [] Sample.be []
    Sample.rc_three Sample.sm_three [2; 3]%Z ∅ = Raise IndexError.
Proof.
  apply (X12_view_empty Sample.store Sample.lacks Sample.junk Sample.junk []
           Sample.be Sample.rc_three Sample.sm_three [2; 3]%Z ∅).
  split; [apply NoDup_nil_2 | done].
Defined.

(** ** Views: ill-shaped maps and values that do not fit *)

Section view_shapes.
Variable h : heap.
Variable lacks : ref → list string.
Variables junk_o junk_l : nat → Z.
Implicit Types (ms matmap : list ref) (rcmap stridemap : np.ndarray2).

Lemma broadcast_mismatch (xs ys : list Z) :
  length xs ≠ length ys → length xs ≠ 1 → length ys ≠ 1 →
  np.broadcast xs ys = None.
Proof.
  intros Hne Hx Hy. unfold np.broadcast. rewrite decide_False by done.
  destruct xs as [| x [| x' xs]]; destruct ys as [| y [| y' ys]];
    simpl in *; done.
Qed.

Lemma binop_incompatible f (a b : np.ndarray) :
  ¬ np.compatible (length (np.data a)) (length (np.data b)) →
  np.binop f a b
  = Raise (ValueError "operands could not be broadcast together").
Proof.
  unfold np.compatible. intros Hc. unfold np.binop.
  rewrite broadcast_mismatch; [done | lia | lia | lia].
Qed.

Lemma column_invalid (A : np.ndarray2) (j : Z) :
  ¬ (- Z.of_nat (np.ncol2 A) ≤ j < Z.of_nat (np.ncol2 A))%Z →
  np.column A j = Raise IndexError.
Proof.
  intros Hj. unfold np.column. by rewrite py_index_invalid.
Qed.

(** Validated matrices: the constructor reaches the loop. *)
Lemma init_validated ms be matmap rcmap stridemap vshape tgs :
  matmap ≠ [] →
  View.enumerates ms matmap →
  View.consistent h be matmap →
  View.readable lacks matmap →
  ∃ nr nc m0,
    View.get_nvrow vshape = Ok nr
    ∧ View.get_nvcol vshape = Ok nc
    ∧ View.init h lacks junk_o junk_l ms be matmap rcmap stridemap vshape
        tgs
      = (ol ← py_for (View.fill h lacks matmap)
                (np.empty junk_o (length matmap) np.int32,
                 np.empty junk_l (length matmap) np.int32) ms;
         let offset := ol.1 in
         let leaddim := ol.2 in
         rows ← np.column rcmap 0;
         disp ← np.mul rows leaddim;
         base ← np.add offset disp;
         cols ← np.column rcmap 1;
         mapping ← np.add base cols;
         rstrides ←
           (if decide (nr > 1)%Z
            then s0 ← np.column stridemap 0;
                 rs ← np.mul s0 leaddim;
                 Ok (Some (np.newaxis rs))
            else Ok None);
         cstrides ←
           (if decide (nc > 1)%Z
            then sl ← np.column stridemap (-1);
                 Ok (Some (np.newaxis sl))
            else Ok None);
         Ok {| View.n := length matmap;
               View.nvrow := nr;
               View.nvcol := nc;
               View._mats := ms;
               View.basedata := MatrixBase.basedata (h m0);
               View.refdtype := MatrixBase.dtype (h m0);
               View.mapping := np.newaxis mapping;
               View.rstrides := rstrides;
               View.cstrides := cstrides |}).
Proof.
  intros Hne Hms [Hcls Hsame] Hread. pose proof Hms as [_ Hin].
  destruct ms as [| m0 ms1].
  { destruct matmap as [| x l]; [done |].
    assert (x ∈ []) as ?%elem_of_nil by (apply Hin; left). done. }
  assert (Hhas : ∀ m a, m ∈ m0 :: ms1 →
            a ∈ ["basedata"; "dtype"; "offset"; "leaddim"]%string →
            a ∉ lacks m).
  { intros m a Hm%Hin Ha. by apply Hread. }
  destruct (get_nvrow_total vshape) as [nr Hnr].
  destruct (get_nvcol_total vshape) as [nc Hnc].
  exists nr, nc, m0. split; [done |]. split; [done |]. unfold View.init.
  rewrite Hnr, Hnc, py_getitem_head. cbn [mbind result_bind].
  rewrite (attr_has lacks m0 "basedata"), (attr_has lacks m0 "dtype")
    by (apply Hhas; [by left | rewrite !elem_of_cons; tauto]).
  cbn [mbind result_bind].
  replace (existsb (λ m, negb (MatrixBase.isinstance (h m) (matrix_cls be)))
             (m0 :: ms1)) with false; cycle 1.
  { symmetry. apply existsb_false_iff. intros x Hx.
    apply negb_false_iff, Hcls, Hin, Hx. }
  rewrite (any_attr_has lacks "basedata" (λ m, MatrixBase.basedata (h m)))
    by (intros m Hm; apply Hhas; [done | rewrite !elem_of_cons; tauto]).
  cbn [mbind result_bind].
  replace (existsb (λ m, bool_decide (MatrixBase.basedata (h m)
                                      ≠ MatrixBase.basedata (h m0)))
             (m0 :: ms1)) with false; cycle 1.
  { symmetry. apply existsb_false_iff. intros x Hx.
    apply bool_decide_eq_false_2. intros Hd. apply Hd.
    apply Hsame; apply Hin; [done | by left]. }
  rewrite (any_attr_has lacks "dtype" (λ m, MatrixBase.dtype (h m)))
    by (intros m Hm; apply Hhas; [done | rewrite !elem_of_cons; tauto]).
  cbn [mbind result_bind].
  replace (existsb (λ m, bool_decide (MatrixBase.dtype (h m)
                                      ≠ MatrixBase.dtype (h m0)))
             (m0 :: ms1)) with false; cycle 1.
  { symmetry. apply existsb_false_iff. intros x Hx.
    apply bool_decide_eq_false_2. intros Hd. apply Hd.
    apply Hsame; apply Hin; [done | by left]. }
  done.
Qed.

End view_shapes.

(** X13: what happens to validated matrices with an ill-shaped index map.
    The constructor does not check the map's shape itself; the array
    operations do.  Without columns, or with one column only and a number
    of rows that can be broadcast against the number of points, indexing
    raises [IndexError]; with a number of rows that cannot be broadcast
    against the number of points the arithmetic raises [ValueError]. *)
Theorem X13_view_ill_shaped (h : heap) (lacks : ref → list string)
    (junk_o junk_l : nat → Z) (ms : list ref) (be : Backend)
    (matmap : list ref) (rcmap stridemap : np.ndarray2) (vshape : list Z)
    (tgs : gset string) :
  matmap ≠ [] →
  View.enumerates ms matmap →
  View.consistent h be matmap →
  View.readable lacks matmap →
  View.fits h matmap →
  (np.ncol2 rcmap = 0 →
   View.init h lacks junk_o junk_l ms be matmap rcmap stridemap vshape tgs
   = Raise IndexError)
  ∧ (np.ncol2 rcmap = 1 →
     np.compatible (np.nrow2 rcmap) (length matmap) →
     View.init h lacks junk_o junk_l ms be matmap rcmap stridemap vshape tgs
     = Raise IndexError)
  ∧ (1 ≤ np.ncol2 rcmap →
     ¬ np.compatible (np.nrow2 rcmap) (length matmap) →
     View.init h lacks junk_o junk_l ms be matmap rcmap stridemap vshape tgs
     = Raise (ValueError "operands could not be broadcast together")).
Proof.
  intros Hne Hms Hcons Hread Hfits.
  destruct (init_validated h lacks junk_o junk_l ms be matmap rcmap
              stridemap vshape tgs Hne Hms Hcons Hread)
    as (nr & nc & m0 & _ & _ & ->).
  rewrite (filled_closed h lacks junk_o junk_l matmap ms Hms Hread Hfits).
  cbn [mbind result_bind fst snd]. cbn zeta.
  assert (Hpos : 1 ≤ length matmap)
    by (destruct matmap; [done | simpl; lia]).
  split; [| split].
  - intros Hc. rewrite (column_invalid rcmap 0) by lia. done.
  - intros Hc Hr.
    destruct (column_valid rcmap 0) as [rows Hrows]; [lia |].
    rewrite Hrows. cbn [mbind result_bind].
    apply column_Ok in Hrows as (_ & _ & _ & _ & Hlr & _).
    unfold np.mul, np.add.
    destruct (binop_compatible Z.mul rows
                {| np.dtype := np.int32;
                   np.data := (λ m, MatrixBase.leaddim (h m)) <$> matmap |})
      as (disp & -> & Hld).
    { simpl. rewrite length_fmap, Hlr. done. }
    cbn [mbind result_bind].
    simpl in Hld. rewrite length_fmap, Hlr in Hld.
    unfold np.broadcast_length, np.compatible in *.
    destruct (binop_compatible Z.add
                {| np.dtype := np.int32;
                   np.data := (λ m, MatrixBase.offset (h m)) <$> matmap |}
                disp)
      as (base & -> & Hlb).
    { unfold np.compatible. simpl. rewrite length_fmap.
      case_decide; lia. }
    cbn [mbind result_bind].
    rewrite (column_invalid rcmap 1) by lia. done.
  - intros Hc Hr.
    destruct (column_valid rcmap 0) as [rows Hrows]; [lia |].
    rewrite Hrows. cbn [mbind result_bind].
    apply column_Ok in Hrows as (_ & _ & _ & _ & Hlr & _).
    unfold np.mul. rewrite binop_incompatible; [done |].
    simpl. by rewrite length_fmap, Hlr.
Qed.

Lemma X13_view_ill_shaped_witness :
  View.init Sample.store Sample.lacks Sample.junk Sample.junk [0] Sample.be
    [0] Sample.rc_empty Sample.sm_unit [] ∅ = Raise IndexError
  ∧ View.init Sample.store Sample.lacks Sample.junk Sample.junk [0]
      Sample.be [0] Sample.rc_narrow Sample.sm_unit [] ∅ = Raise IndexError
  ∧ View.init Sample.store Sample.lacks Sample.junk Sample.junk [1; 0]
      Sample.be Sample.matmap_three Sample.rc_two Sample.sm_three [] ∅
    = Raise (ValueError "operands could not be broadcast together").
Proof.
  assert (Hread : View.readable Sample.lacks [0]).
  { apply sample_readable. by intros m ->%list_elem_of_singleton. }
  assert (Hfits : View.fits Sample.store [0]).
  { apply sample_fits. intros m ->%list_elem_of_singleton. lia. }
  split; [| split].
  - destruct (X13_view_ill_shaped Sample.store Sample.lacks Sample.junk
                Sample.junk [0] Sample.be [0] Sample.rc_empty Sample.sm_unit
                [] ∅) as (Hno & _);
      [done | apply sample_one_enumerates
      | by apply sample_one_consistent | done | done |].
    apply Hno. reflexivity.
  - destruct (X13_view_ill_shaped Sample.store Sample.lacks Sample.junk
                Sample.junk [0] Sample.be [0] Sample.rc_narrow
                Sample.sm_unit [] ∅) as (_ & Hone & _);
      [done | apply sample_one_enumerates
      | by apply sample_one_consistent | done | done |].
    apply Hone; [reflexivity | by left].
  - destruct (X13_view_ill_shaped Sample.store Sample.lacks Sample.junk
                Sample.junk [1; 0] Sample.be Sample.matmap_three
                Sample.rc_two Sample.sm_three [] ∅) as (_ & _ & Hbc);
      [done | apply sample_three_enumerates | apply sample_three_consistent
      | apply sample_three_readable | apply sample_three_fits |].
    apply Hbc; [simpl; lia |].
    unfold np.compatible. simpl. lia.
Defined.

(** ** Distributed views over the base constructor *)

(** X14: when the backend's view factory runs the base-class constructor
    on its arguments, the staging matrix of an [MPIView] is requested with
    a shape that is determined by the arguments alone: the row and column
    multiplicities the shape argument gives and the number of points; and
    the [MPIView] records the same three numbers. *)
Theorem X14_mpiview_staging_shape {St : Type} `{!BackendFactory St}
    (h : heap) (lacks : ref → list string)
    (junk_o junk_l : nat → Z) (ms : list ref) (be : Backend)
    (matmap : list ref) (rcmap stridemap : np.ndarray2) (vshape : list Z)
    (tgs : gset string) (s s2 : St) (mv : MPIView.t) :
  (backend_view be matmap rcmap stridemap vshape tgs s).2
  = View.init h lacks junk_o junk_l ms be matmap rcmap stridemap vshape tgs →
  MPIView.init be matmap rcmap stridemap vshape tgs s = (s2, Ok mv) →
  MPIView.n mv = length matmap
  ∧ View.get_nvrow vshape = Ok (MPIView.nvrow mv)
  ∧ View.get_nvcol vshape = Ok (MPIView.nvcol mv)
  ∧ ∃ s1 nr nc,
      View.get_nvrow vshape = Ok nr ∧ View.get_nvcol vshape = Ok nc
      ∧ backend_mpi_matrix be (nr, nc, Z.of_nat (length matmap)) tgs s1
        = (s2, Ok (MPIView.mpimat mv)).
Proof.
  intros Hview. unfold MPIView.init, mbind, M_bind, mret, M_ret.
  destruct (backend_view be matmap rcmap stridemap vshape tgs s)
    as [s1 [v | e]] eqn:Hv; [| done].
  simpl in Hview. symmetry in Hview.
  destruct (init_Ok _ _ _ _ _ _ _ _ _ _ _ _ Hview)
    as (_ & _ & _ & _ & _ & _ & Hr & Hc & Hn & _).
  destruct (backend_mpi_matrix be _ tgs s1) as [s2' [m | e]] eqn:Hm;
    [| done].
  intros [= <- <-]. simpl. rewrite Hn in *.
  repeat split; try done. by exists s1, (View.nvrow v), (View.nvcol v).
Qed.

Lemma X14_mpiview_staging_shape_witness :
  ∃ s2 mv,
    MPIView.init Sample.be Sample.matmap_three Sample.rc_three
      Sample.sm_three [2; 3]%Z {["mpi"]} Sample.state = (s2, Ok mv)
    ∧ MPIView.n mv = 3
    ∧ View.get_nvrow [2; 3]%Z = Ok (MPIView.nvrow mv).
Proof.
  destruct (MPIView.init Sample.be Sample.matmap_three Sample.rc_three
              Sample.sm_three [2; 3]%Z {["mpi"]} Sample.state)
    as [s2 [mv | e]] eqn:E; [| by vm_compute in E].
  exists s2, mv. split; [reflexivity |].
  destruct (X14_mpiview_staging_shape Sample.store (λ _, []) (λ _, 0%Z)
              (λ _, 0%Z)
              (View.distinct Sample.matmap_three) Sample.be
              Sample.matmap_three Sample.rc_three Sample.sm_three [2; 3]%Z
              {["mpi"]} Sample.state s2 mv) as (Hn & Hr & _).
  - reflexivity.
  - exact E.
  - split; [exact Hn | exact Hr].
Defined.

(** ** Views: a single index pair for all points *)

Lemma binop_single_l f (a b : np.ndarray) (x : Z) :
  np.data a = [x] →
  ∃ c, np.binop f a b = Ok c
       ∧ np.dtype c = np.result_type (np.dtype a) (np.dtype b)
       ∧ length (np.data c) = length (np.data b)
       ∧ ∀ i y, np.data b !! i = Some y →
           np.data c !! i
           = Some (np.wrap (np.result_type (np.dtype a) (np.dtype b))
                     (f x y)).
Proof.
  intros Ha. unfold np.binop. rewrite Ha.
  assert (Hb : np.broadcast [x] (np.data b)
               = Some (replicate (length (np.data b)) x, np.data b)).
  { unfold np.broadcast. case_decide as Hlen; [| done].
    simpl in Hlen. by rewrite <- Hlen. }
  rewrite Hb. eexists. split; [done |]. simpl. split; [done |]. split.
  - rewrite length_zip_with, length_replicate. lia.
  - intros i y Hy. rewrite lookup_zip_with.
    rewrite lookup_replicate_2 by (by eapply lookup_lt_Some).
    simpl. by rewrite Hy.
Qed.

Lemma binop_single_r f (a b : np.ndarray) (y : Z) :
  np.data b = [y] →
  ∃ c, np.binop f a b = Ok c
       ∧ np.dtype c = np.result_type (np.dtype a) (np.dtype b)
       ∧ length (np.data c) = length (np.data a)
       ∧ ∀ i x, np.data a !! i = Some x →
           np.data c !! i
           = Some (np.wrap (np.result_type (np.dtype a) (np.dtype b))
                     (f x y)).
Proof.
  intros Hb. unfold np.binop. rewrite Hb.
  assert (Hbc : np.broadcast (np.data a) [y]
                = Some (np.data a, replicate (length (np.data a)) y)).
  { unfold np.broadcast. case_decide as Hlen.
    - simpl in Hlen. by rewrite Hlen.
    - destruct (np.data a) as [| x [| x' xs]]; simpl in *; done. }
  rewrite Hbc. eexists. split; [done |]. simpl. split; [done |]. split.
  - rewrite length_zip_with, length_replicate. lia.
  - intros i x Hx. rewrite lookup_zip_with, Hx. simpl.
    rewrite lookup_replicate_2 by (by eapply lookup_lt_Some). done.
Qed.

(** The column of an array with a single row. *)
Lemma column_single_row (A : np.ndarray2) (j : Z) c :
  np.nrow2 A = 1 → (0 ≤ j)%Z → np.column A j = Ok c →
  np.dtype c = np.dtype2 A ∧ np.data c = [np.at2 A 0 (Z.to_nat j)].
Proof.
  intros Hrow Hj Hc.
  apply column_Ok in Hc as (k & Hk & _ & Hd & Hl & Hat).
  apply py_index_nonneg in Hk as ->; [| done].
  split; [done |]. rewrite Hrow in *.
  specialize (Hat 0 ltac:(lia)).
  destruct (np.data c) as [| x [| x' xs]]; simpl in *; [done | | done].
  by injection Hat as ->.
Qed.

(** X15: an index map with a single row is not rejected: over validated
    matrices the one (row, col) pair is broadcast to every point, so that
    point [i] maps to the element (row, col) of its own matrix. *)
Theorem X15_view_single_pair (h : heap) (lacks : ref → list string)
    (junk_o junk_l : nat → Z) (ms : list ref) (be : Backend)
    (matmap : list ref) (rcmap stridemap : np.ndarray2) (vshape : list Z)
    (tgs : gset string) :
  matmap ≠ [] →
  View.enumerates ms matmap →
  View.consistent h be matmap →
  View.readable lacks matmap →
  View.fits h matmap →
  View.usable matmap rcmap stridemap vshape →
  np.nrow2 rcmap = 1 →
  ∃ v, View.init h lacks junk_o junk_l ms be matmap rcmap stridemap vshape
         tgs = Ok v
       ∧ np.ncol2 (View.mapping v) = length matmap
       ∧ ∀ i m, matmap !! i = Some m →
           np.at2 (View.mapping v) 0 i
           = np.wrap (View.index_type rcmap)
               (MatrixBase.offset (h m)
                + np.at2 rcmap 0 0 * MatrixBase.leaddim (h m)
                + np.at2 rcmap 0 1).
Proof.
  intros Hne Hms Hcons Hread Hfits Huse Hrow.
  destruct (init_succeeds h lacks junk_o junk_l ms be matmap rcmap stridemap
              vshape tgs Hms Hne Hcons Hread Hfits Huse) as [v Hv].
  exists v. split; [done |].
  destruct (init_Ok _ _ _ _ _ _ _ _ _ _ _ _ Hv)
    as (m0 & rows & disp & base & cols & mp & _ & _ & _ & _ & _ & _ & _ & _
        & ol & Hol & _ & Hrows & Hdisp & Hbase & Hcols & Hmp & Hmap & _).
  rewrite (filled_closed h lacks junk_o junk_l matmap ms Hms Hread Hfits)
    in Hol.
  injection Hol as <-. cbn [fst snd] in *.
  set (offset := {| np.dtype := np.int32;
                    np.data := (λ m, MatrixBase.offset (h m)) <$> matmap |})
    in *.
  set (leaddim := {| np.dtype := np.int32;
                     np.data := (λ m, MatrixBase.leaddim (h m))
                                <$> matmap |}) in *.
  assert (Hlo : length (np.data offset) = length matmap)
    by (subst offset; simpl; by rewrite length_fmap).
  assert (Hll : length (np.data leaddim) = length matmap)
    by (subst leaddim; simpl; by rewrite length_fmap).
  assert (Hoff : ∀ i m, matmap !! i = Some m →
            np.data offset !! i = Some (MatrixBase.offset (h m)))
    by (intros i m Hi; subst offset; simpl;
        by rewrite list_lookup_fmap, Hi).
  assert (Hlea : ∀ i m, matmap !! i = Some m →
            np.data leaddim !! i = Some (MatrixBase.leaddim (h m)))
    by (intros i m Hi; subst leaddim; simpl;
        by rewrite list_lookup_fmap, Hi).
  assert (Hdo : np.dtype offset = np.int32) by done.
  assert (Hdl : np.dtype leaddim = np.int32) by done.
  clearbody offset leaddim.
  apply column_single_row in Hrows as [Hdr Hr]; [| done | done].
  apply column_single_row in Hcols as [Hdc Hc]; [| done | done].
  destruct (binop_single_l Z.mul rows leaddim _ Hr)
    as (disp' & Hdisp' & Hdd & Hld & Hd).
  unfold np.mul, np.add in *. rewrite Hdisp' in Hdisp.
  injection Hdisp as <-.
  apply binop_Ok_same_length in Hbase as (Hdb & Hlb & Hb); [| lia].
  destruct (binop_single_r Z.add base cols _ Hc)
    as (mp' & Hmp' & Hdm & Hlm & Hm).
  rewrite Hmp' in Hmp. injection Hmp as <-.
  rewrite Hmap. simpl. split; [lia |].
  intros i m Hi. apply nth_lookup_Some.
  rewrite (Hm i _ (Hb i _ _ (Hoff i m Hi) (Hd i _ (Hlea i m Hi)))).
  f_equal. rewrite Hdb, Hdd, Hdo, Hdl, Hdr, Hdc.
  replace (np.result_type (np.result_type np.int32
             (np.result_type (np.dtype2 rcmap) np.int32))
             (np.dtype2 rcmap)) with (View.index_type rcmap)
    by (unfold View.index_type; by destruct (np.dtype2 rcmap)).
  replace (np.result_type np.int32
             (np.result_type (np.dtype2 rcmap) np.int32))
    with (View.index_type rcmap)
    by (unfold View.index_type; by destruct (np.dtype2 rcmap)).
  replace (np.result_type (np.dtype2 rcmap) np.int32)
    with (View.index_type rcmap) by done.
  by rewrite wrap_add_l, wrap_add_mid.
Qed.

Lemma X15_view_single_pair_witness :
  ∃ v, View.init Sample.store Sample.lacks Sample.junk Sample.junk [1; 0]
         Sample.be Sample.matmap_three Sample.rc_small Sample.sm_three [] ∅
       = Ok v
       ∧ np.ncol2 (View.mapping v) = 3
       ∧ np.at2 (View.mapping v) 0 1 = 51%Z.
Proof.
  destruct (X15_view_single_pair Sample.store Sample.lacks Sample.junk
              Sample.junk [1; 0] Sample.be Sample.matmap_three
              Sample.rc_small Sample.sm_three [] ∅)
    as (v & Hv & Hn & Hent).
  - done.
  - apply sample_three_enumerates.
  - apply sample_three_consistent.
  - apply sample_three_readable.
  - apply sample_three_fits.
  - unfold View.usable, np.compatible. simpl.
    split; [lia |]. split; [by right; left |].
    split; intros r [= <-]; lia.
  - reflexivity.
  - exists v. split; [exact Hv |]. split; [exact Hn |].
    by rewrite (Hent 1 1 eq_refl).
Defined.

(** ** Views: offsets that do not fit *)


